(** * Email-Automation-UI: the operator console's core, embedded in Rocq

    The development follows the Python sources:
    - [database.py]            the Recipient Store Facade and the Status Projector
    - [operational_safety.py]  the Safety Guard and the display helpers
    - [backend_integration.py] the Backend Bridge

    The package [email_automation] (repositories, scheduler, reply tracker) is
    an external collaborator of the console: it enters the development as an
    interface whose operations may return or raise.  Logging is not modelled. *)

From Stdlib Require Import ZArith String Ascii List Bool Lia DecimalString.
From stdpp Require Import base option gmap strings list.

Open Scope Z_scope.

(* ================================================================== *)
(** * Part I. Definitions *)
(* ================================================================== *)

(** ** Python values, truthiness and string methods *)

(** What a cell of a [sqlite3] row, or an untyped Python variable, can hold in
    the code paths below. *)
Inductive value : Type :=
  | VNone
  | VInt (z : Z)
  | VStr (s : string).

(** [bool(v)]: [None], [0] and [''] are falsy. *)
Definition truthy (v : value) : bool :=
  match v with
  | VNone => false
  | VInt z => negb (z =? 0)
  | VStr s => negb (String.eqb s "")
  end.

(** [a or b] on values. *)
Definition py_or (a b : value) : value := if truthy a then a else b.

(** [bool(d.get(k))] for a [Dict[str, str]]: an absent key gives [None]. *)
Definition truthy_get (o : option string) : bool :=
  match o with
  | None => false
  | Some s => negb (String.eqb s "")
  end.

(** A field that is missing from the dictionary, or empty. *)
Definition absent_or_empty (o : option string) : Prop := o = None \/ o = Some "".

(** [all([...])] *)
Definition all (bs : list bool) : bool := forallb id bs.

(** [str(n)] for an integer. *)
Definition str_of_int (z : Z) : string := NilZero.string_of_int (Z.to_int z).

(** [needle in text] *)
Definition contains (needle text : string) : bool :=
  match String.index 0 needle text with
  | Some _ => true
  | None => false
  end.

(** [str.isspace] on the ASCII range: tab, line feed, vertical tab, form feed,
    carriage return, the four separators 0x1c-0x1f and the space. *)
Definition is_space (c : ascii) : bool :=
  let n := nat_of_ascii c in
  ((9 <=? n)%nat && (n <=? 13)%nat) || ((28 <=? n)%nat && (n <=? 32)%nat).

(** [str.lstrip()] *)
Fixpoint lstrip (s : string) : string :=
  match s with
  | EmptyString => EmptyString
  | String c rest => if is_space c then lstrip rest else s
  end.

(** [str.rstrip()] *)
Fixpoint rstrip (s : string) : string :=
  match s with
  | EmptyString => EmptyString
  | String c rest =>
      match rstrip rest with
      | EmptyString => if is_space c then EmptyString else String c EmptyString
      | kept => String c kept
      end
  end.

(** [str.strip()] *)
Definition strip (s : string) : string := rstrip (lstrip s).

(** [str.lower()] on ASCII text: only [A]-[Z] change. *)
Definition lower_ascii (c : ascii) : ascii :=
  let n := nat_of_ascii c in
  if ((65 <=? n)%nat && (n <=? 90)%nat) then ascii_of_nat (n + 32) else c.

Fixpoint lower (s : string) : string :=
  match s with
  | EmptyString => EmptyString
  | String c rest => String (lower_ascii c) (lower rest)
  end.

(** ** Effects: calls that return or raise *)

(** An instance of Python's [Exception]; [str(e)] is its message. *)
Inductive exn : Type := Exception (msg : string).

Definition str_of_exn (e : exn) : string := let 'Exception msg := e in msg.

Inductive outcome (A : Type) : Type :=
  | Returns (a : A)
  | Raises (e : exn).
Arguments Returns {A} a.
Arguments Raises {A} e.

(** A computation over a world [W]: everything outside the console that a
    call can read or change (the store, the backend process, the clock).
    What a call changed before it raised stays changed. *)
Definition io (W A : Type) : Type := W -> outcome A * W.

Definition ret {W A} (a : A) : io W A := fun w => (Returns a, w).

Definition raise {W A} (e : exn) : io W A := fun w => (Raises e, w).

Definition bind {W A B} (m : io W A) (k : A -> io W B) : io W B :=
  fun w =>
    match m w with
    | (Returns a, w') => k a w'
    | (Raises e, w') => (Raises e, w')
    end.

(** [try: body / except Exception as e: handler e] *)
Definition try_except {W A} (body : io W A) (handler : exn -> io W A) : io W A :=
  fun w =>
    match body w with
    | (Returns a, w') => (Returns a, w')
    | (Raises e, w') => handler e w'
    end.

Declare Scope io_scope.
Delimit Scope io_scope with io.
Notation "'do' x <- m ; k" := (bind m (fun x => k))
  (at level 10, x name, m at level 100, k at level 200) : io_scope.
Notation "'run' m ; k" := (bind m (fun _ => k))
  (at level 10, m at level 100, k at level 200) : io_scope.

(** [for x in xs: body x] *)
Fixpoint for_each {W A} (xs : list A) (body : A -> io W unit) : io W unit :=
  match xs with
  | [] => ret tt
  | x :: rest => bind (body x) (fun _ => for_each rest body)
  end.

(** Calling a method on an attribute that is still [None]. *)
Definition attr {W A} (o : option A) (method : string) : io W A :=
  match o with
  | Some a => ret a
  | None => raise (Exception ("'NoneType' object has no attribute '" +:+ method +:+ "'"))
  end.

(** [row[i]] on a result row. *)
Definition row_get {W} (row : list value) (i : nat) : io W value :=
  match nth_error row i with
  | Some v => ret v
  | None => raise (Exception "tuple index out of range")
  end.

(** [[f(x) for x in xs]], stopping at the first element that raises. *)
Fixpoint map_io {W A B} (f : A -> io W B) (xs : list A) : io W (list B) :=
  match xs with
  | [] => ret []
  | x :: rest => bind (f x) (fun y => bind (map_io f rest) (fun ys => ret (y :: ys)))
  end.

(** ** database.py: the data classes *)

(** [email_automation.db.models.Recipient], as the facade constructs it. *)
Module Recipient.
Record t : Type := Build {
  first_name : string;
  company : string;
  role : string;
  email : string;
  status : string
}.
End Recipient.

(** [email_automation.db.models.EmailSequence]: one row per
    (recipient, step). *)
Module EmailSequence.
Record t : Type := Build {
  recipient_id : Z;
  step : Z;
  scheduled_at : Z;
  sent_at : option Z;
  replied : bool
}.

(** Modelled from the spec: the class is outside the console, and the
    facade passes [recipient_id], [step] and [scheduled_at] only.  The two
    other attributes are the data model's "actual-sent timestamp (absent
    until sent)" and "replied flag", left at their defaults. *)
Definition new (recipient_id step scheduled_at : Z) : t :=
  Build recipient_id step scheduled_at None false.
End EmailSequence.

Module DashboardMetrics.
Record t : Type := Build {
  total_recipients : value;
  active_recipients : value;
  replied_recipients : value;
  pending_recipients : value;
  scheduler_running : bool;
  last_updated : Z
}.
End DashboardMetrics.

Module RecipientStatus.
Record t : Type := Build {
  id : value;
  first_name : value;
  company : value;
  role : value;
  email : value;
  first_mail_sent : bool;
  reminder1_sent : bool;
  reminder2_sent : bool;
  has_replied : bool;
  current_status : string;
  last_activity : value
}.
End RecipientStatus.

(** The two SQL texts the facade sends to [execute_query]. *)
Inductive query : Type :=
  | DashboardCountsQuery      (* SELECT COUNT( * ), COUNT(CASE WHEN status = ...) FROM recipients *)
  | RecipientsWithStatusQuery (* SELECT r.id, ..., MAX(CASE ...) ... GROUP BY ... ORDER BY r.created_at DESC *).

(** ** The store the facade talks to

    [DatabaseManager], [RecipientRepository] and [EmailSequenceRepository]
    live in [email_automation]; every operation may return or raise.
    Timestamps are microseconds since the epoch; [datetime_now] reads the
    clock. *)
Class Store (W : Type) : Type := {
  DatabaseManager : Type;
  RecipientRepository : Type;
  EmailSequenceRepository : Type;
  execute_query : DatabaseManager -> query -> io W (list (list value));
  get_by_email : RecipientRepository -> string -> io W (option Recipient.t);
  recipient_validate : Recipient.t -> io W bool;
  recipient_create : RecipientRepository -> Recipient.t -> io W Z;
  sequence_create : EmailSequenceRepository -> EmailSequence.t -> io W unit;
  datetime_now : W -> Z * W
}.

Definition now {W} `{Store W} : io W Z :=
  fun w => let '(t, w') := datetime_now w in (Returns t, w').

(** ** database.py: class UIDatabase *)

Module UIDatabase.
Section Facade.
Context {W : Type} `{S : Store W}.
Local Open Scope io_scope.

(** The attributes [initialize] fills in; [None] until then. *)
Record t : Type := Build {
  db_manager : option DatabaseManager;
  recipient_repo : option RecipientRepository;
  sequence_repo : option EmailSequenceRepository
}.

Definition default_metrics (t0 : Z) : DashboardMetrics.t :=
  DashboardMetrics.Build (VInt 0) (VInt 0) (VInt 0) (VInt 0) false t0.

Definition get_dashboard_metrics (self : t) : io W DashboardMetrics.t :=
  try_except
    (do db <- attr (db_manager self) "execute_query";
     do results <- execute_query db DashboardCountsQuery;
     match results with
     | row :: _ =>
         do c0 <- row_get row 0;
         do c1 <- row_get row 1;
         do c2 <- row_get row 2;
         do c3 <- row_get row 3;
         do t0 <- now;
         ret (DashboardMetrics.Build (py_or c0 (VInt 0)) (py_or c1 (VInt 0))
                (py_or c2 (VInt 0)) (py_or c3 (VInt 0)) false t0)
     | [] =>
         do t0 <- now;
         ret (default_metrics t0)
     end)
    (fun e =>
       do t0 <- now;
       ret (default_metrics t0)).

Definition _calculate_status (recipient_status : value) (has_replied : bool) : string :=
  if has_replied then "Replied (sequence stopped)"
  else match recipient_status with
       | VStr s =>
           if String.eqb s "active" then "In sequence"
           else if String.eqb s "pending" then "Not started"
           else if String.eqb s "stopped" then "Stopped manually"
           else "Unknown"
       | _ => "Unknown"
       end.

(** The body of the [for row in results] loop. *)
Definition recipient_status_of_row (row : list value) : io W RecipientStatus.t :=
  do c0 <- row_get row 0;
  do c1 <- row_get row 1;
  do c2 <- row_get row 2;
  do c3 <- row_get row 3;
  do c4 <- row_get row 4;
  do c6 <- row_get row 6;
  do c7 <- row_get row 7;
  do c8 <- row_get row 8;
  do c9 <- row_get row 9;
  do c5 <- row_get row 5;
  do c9' <- row_get row 9;
  do c10 <- row_get row 10;
  ret (RecipientStatus.Build c0 c1 c2 c3 c4
         (truthy c6) (truthy c7) (truthy c8) (truthy c9)
         (_calculate_status c5 (truthy c9')) c10).

Definition get_recipients_with_status (self : t) : io W (list RecipientStatus.t) :=
  try_except
    (do db <- attr (db_manager self) "execute_query";
     do results <- execute_query db RecipientsWithStatusQuery;
     map_io recipient_status_of_row results)
    (fun e => ret []).

(** [recipient_data[key]] *)
Definition subscript (recipient_data : gmap string string) (key : string) : io W string :=
  match recipient_data !! key with
  | Some v => ret v
  | None => raise (Exception ("'" +:+ key +:+ "'"))
  end.

Definition add_recipient (self : t) (recipient_data : gmap string string)
  : io W (bool * string) :=
  try_except
    (if negb (all [truthy_get (recipient_data !! "first_name");
                   truthy_get (recipient_data !! "company");
                   truthy_get (recipient_data !! "email")])
     then ret (false, "Missing required fields")
     else
       do repo <- attr (recipient_repo self) "get_by_email";
       do raw_email <- subscript recipient_data "email";
       do existing <- get_by_email repo raw_email;
       match existing with
       | Some _ =>
           do shown <- subscript recipient_data "email";
           ret (false, "Recipient with email " +:+ shown +:+ " already exists")
       | None =>
           do fn <- subscript recipient_data "first_name";
           do co <- subscript recipient_data "company";
           do em <- subscript recipient_data "email";
           let recipient :=
             Recipient.Build (strip fn) (strip co)
               (strip (default "" (recipient_data !! "role")))
               (lower (strip em)) "pending" in
           do valid <- recipient_validate recipient;
           if negb valid then ret (false, "Invalid recipient data")
           else
             do repo' <- attr (recipient_repo self) "create";
             do new_id <- recipient_create repo' recipient;
             run for_each [1; 2; 3] (fun step =>
                   do t0 <- now;
                   do seqs <- attr (sequence_repo self) "create";
                   sequence_create seqs (EmailSequence.new new_id step t0));
             ret (true, "Successfully added " +:+ Recipient.email recipient)
       end)
    (fun e => ret (false, "Database error: " +:+ str_of_exn e)).

End Facade.
End UIDatabase.

(** ** The two tables behind the repositories *)

(** Modelled from the spec: the repositories and their SQL are outside the
    console (package [email_automation]).  The persisted layout is "two
    tables, [recipients] (one row per Recipient) and [email_sequence] (one row
    per SequenceStep, foreign-keyed to recipient id, unique on
    (recipient_id, step))", and a recipient's email is "unique across all
    recipients".  [get_by_email] compares the stored column with its argument
    (SQL [=] on text); an insert that breaks a uniqueness constraint raises.
    [Recipient.validate] and the clock are left as parameters. *)
Module Tables.

Record recipient_row : Type := Row {
  row_id : Z;
  row_data : Recipient.t
}.

Record world : Type := World {
  recipients : list recipient_row;
  email_sequence : list EmailSequence.t;
  clock_reads : nat
}.

Definition empty : world := World [] [] 0.

Definition email_taken (e : string) (w : world) : bool :=
  existsb (fun r => String.eqb (Recipient.email (row_data r)) e) (recipients w).

Definition slot_taken (rid stp : Z) (w : world) : bool :=
  existsb (fun es => (EmailSequence.recipient_id es =? rid) && (EmailSequence.step es =? stp))
    (email_sequence w).

(** The next row id: one more than the largest in use. *)
Definition next_id (w : world) : Z :=
  1 + fold_right Z.max 0 (map row_id (recipients w)).

Definition count_status (s : string) (w : world) : Z :=
  Z.of_nat (length (List.filter
    (fun r => String.eqb (Recipient.status (row_data r)) s) (recipients w))).

(** [LEFT JOIN email_sequence es ON r.id = es.recipient_id]: the group of
    one recipient; a recipient without steps keeps one all-NULL row. *)
Definition left_join (rid : Z) (steps : list EmailSequence.t)
  : list (option EmailSequence.t) :=
  match List.filter (fun es => EmailSequence.recipient_id es =? rid) steps with
  | [] => [None]
  | matched => map Some matched
  end.

(** [CASE WHEN cond THEN 1 ELSE 0 END]; a condition on NULL columns is not true. *)
Definition case_when (cond : EmailSequence.t -> bool) (o : option EmailSequence.t) : Z :=
  match o with
  | Some es => if cond es then 1 else 0
  | None => 0
  end.

(** [MAX(...)] over a group: NULL for no value. *)
Definition sql_max (zs : list Z) : value :=
  match zs with
  | [] => VNone
  | z :: rest => VInt (fold_left Z.max rest z)
  end.

Definition step_sent (n : Z) (es : EmailSequence.t) : bool :=
  (EmailSequence.step es =? n) && bool_decide (is_Some (EmailSequence.sent_at es)).

(** [MAX(CASE WHEN es.replied = 1 THEN 1 ELSE 0 END) as has_replied] *)
Definition has_replied_column (group : list (option EmailSequence.t)) : value :=
  sql_max (map (case_when EmailSequence.replied) group).

(** [MAX(es.sent_at) as last_activity]: NULLs do not count. *)
Definition last_activity_column (group : list (option EmailSequence.t)) : value :=
  sql_max (omap (fun o => o ≫= EmailSequence.sent_at) group).

Definition status_row (steps : list EmailSequence.t) (r : recipient_row) : list value :=
  let group := left_join (row_id r) steps in
  let d := row_data r in
  [ VInt (row_id r); VStr (Recipient.first_name d); VStr (Recipient.company d);
    VStr (Recipient.role d); VStr (Recipient.email d); VStr (Recipient.status d);
    sql_max (map (case_when (step_sent 1)) group);
    sql_max (map (case_when (step_sent 2)) group);
    sql_max (map (case_when (step_sent 3)) group);
    has_replied_column group;
    last_activity_column group ].

(** Rows are kept in insertion order, so newest-first is the reverse. *)
Definition run_query (q : query) (w : world) : list (list value) :=
  match q with
  | DashboardCountsQuery =>
      [[ VInt (Z.of_nat (length (recipients w)));
         VInt (count_status "active" w);
         VInt (count_status "replied" w);
         VInt (count_status "pending" w) ]]
  | RecipientsWithStatusQuery =>
      map (status_row (email_sequence w)) (rev (recipients w))
  end.

(** The record [add_recipient] builds from the submitted fields. *)
Definition submitted (fn co em : string) (recipient_data : gmap string string)
  : Recipient.t :=
  Recipient.Build (strip fn) (strip co)
    (strip (default "" (recipient_data !! "role"))) (lower (strip em)) "pending".

(** The three step rows of a new recipient, stamped with three readings
    of the clock. *)
Definition new_steps (clock_at : nat -> Z) (rid : Z) (reads : nat)
  : list EmailSequence.t :=
  [ EmailSequence.Build rid 1 (clock_at reads) None false;
    EmailSequence.Build rid 2 (clock_at (S reads)) None false;
    EmailSequence.Build rid 3 (clock_at (S (S reads))) None false ].

Section Instance_.
Variable valid : Recipient.t -> bool.
Variable clock_at : nat -> Z.

Definition insert_recipient (r : Recipient.t) : io world Z :=
  fun w =>
    if email_taken (Recipient.email r) w
    then (Raises (Exception "UNIQUE constraint failed: recipients.email"), w)
    else (Returns (next_id w),
          World (recipients w ++ [Row (next_id w) r]) (email_sequence w) (clock_reads w)).

Definition insert_sequence (es : EmailSequence.t) : io world unit :=
  fun w =>
    if slot_taken (EmailSequence.recipient_id es) (EmailSequence.step es) w
    then (Raises (Exception
            "UNIQUE constraint failed: email_sequence.recipient_id, email_sequence.step"), w)
    else (Returns tt,
          World (recipients w) (email_sequence w ++ [es]) (clock_reads w)).

Definition select_by_email (e : string) : io world (option Recipient.t) :=
  fun w =>
    (Returns (row_data <$>
       List.find (fun r => String.eqb (Recipient.email (row_data r)) e) (recipients w)), w).

Definition read_clock (w : world) : Z * world :=
  (clock_at (clock_reads w),
   World (recipients w) (email_sequence w) (S (clock_reads w))).

#[local] Instance store : Store world := {
  DatabaseManager := unit;
  RecipientRepository := unit;
  EmailSequenceRepository := unit;
  execute_query := fun _ q w => (Returns (run_query q w), w);
  get_by_email := fun _ => select_by_email;
  recipient_validate := fun r w => (Returns (valid r), w);
  recipient_create := fun _ => insert_recipient;
  sequence_create := fun _ => insert_sequence;
  datetime_now := read_clock
}.

(** A facade whose [initialize] has run. *)
Definition connected : UIDatabase.t (S := store) :=
  UIDatabase.Build (Some tt) (Some tt) (Some tt).

Definition add_recipient (recipient_data : gmap string string) : io world (bool * string) :=
  UIDatabase.add_recipient connected recipient_data.

Definition get_dashboard_metrics : io world DashboardMetrics.t :=
  UIDatabase.get_dashboard_metrics connected.

Definition get_recipients_with_status : io world (list RecipientStatus.t) :=
  UIDatabase.get_recipients_with_status connected.
End Instance_.

(** The rule of [AddRecipientForm.validate], the console's own form check. *)
Definition form_valid (r : Recipient.t) : bool :=
  negb (String.eqb (Recipient.first_name r) "")
  && negb (String.eqb (Recipient.company r) "")
  && negb (String.eqb (Recipient.email r) "")
  && contains "@" (Recipient.email r) && contains "." (Recipient.email r).

End Tables.

(** ** A store that cannot be reached

    Every call that goes to the database raises, as [sqlite3] does when the
    file cannot be opened; the clock stands at 0. *)
Module Offline.

Definition unreachable {A : Type} : io unit A :=
  raise (Exception "unable to open database file").

#[local] Instance store : Store unit := {
  DatabaseManager := unit;
  RecipientRepository := unit;
  EmailSequenceRepository := unit;
  execute_query := fun _ _ => unreachable;
  get_by_email := fun _ _ => unreachable;
  recipient_validate := fun _ => ret true;
  recipient_create := fun _ _ => unreachable;
  sequence_create := fun _ _ => unreachable;
  datetime_now := fun w => (0, w)
}.

Definition connected : UIDatabase.t (S := store) :=
  UIDatabase.Build (Some tt) (Some tt) (Some tt).

End Offline.

(** ** operational_safety.py *)

(** [datetime.timedelta], normalised as Python keeps it: any number of days
    (negative too), [0 <= seconds < 86400], [0 <= microseconds < 1000000].
    A [datetime] is the number of microseconds since the epoch. *)
Module timedelta.
Record t : Type := Build {
  days : Z;
  seconds : Z;
  microseconds : Z
}.

Definition us_per_second : Z := 1000000.
Definition us_per_day : Z := 86400 * us_per_second.

Definition of_microseconds (us : Z) : t :=
  Build (us / us_per_day) ((us mod us_per_day) / us_per_second) (us mod us_per_second).

(** [a - b] on two datetimes. *)
Definition between (a b : Z) : t := of_microseconds (a - b).

(** [timedelta(minutes=n)] *)
Definition of_minutes (n : Z) : t := of_microseconds (n * 60 * us_per_second).

(** [d1 < d2]: field by field, days first. *)
Definition ltb (d1 d2 : t) : bool :=
  (days d1 <? days d2)
  || ((days d1 =? days d2)
      && ((seconds d1 <? seconds d2)
          || ((seconds d1 =? seconds d2) && (microseconds d1 <? microseconds d2)))).
End timedelta.

(** [n] seconds, in microseconds. *)
Definition seconds (n : Z) : Z := n * timedelta.us_per_second.

(** The browser session: [scheduler_last_start] and [scheduler_last_stop]
    hold the text [datetime.isoformat()] wrote, which [fromisoformat] reads
    back unchanged; the model keeps the datetime itself. *)
Module OperationalSafety.

Definition last_operation_key (action : string) : string :=
  "scheduler_last_" +:+ action.

Definition validate_scheduler_operation
    (session : gmap string Z) (now_ : Z) (action : string) (current_status : bool)
  : bool * string :=
  if String.eqb action "start" && current_status
  then (false, "Scheduler is already running")
  else if String.eqb action "stop" && negb current_status
  then (false, "Scheduler is already stopped")
  else
    match session !! last_operation_key action with
    | Some last_time =>
        if timedelta.ltb (timedelta.between now_ last_time) (timedelta.of_minutes 1)
        then (false, "Please wait before " +:+ action
                       +:+ "ing the scheduler again (minimum 1 minute interval)")
        else (true, "Operation allowed")
    | None => (true, "Operation allowed")
    end.

Definition record_scheduler_operation
    (session : gmap string Z) (now_ : Z) (action : string) : gmap string Z :=
  <[last_operation_key action := now_]> session.

End OperationalSafety.

Module UserExperienceEnhancements.

(** [last_activity] is [None] or a datetime; a datetime is always truthy. *)
Definition format_last_activity (now_ : Z) (last_activity : option Z) : string :=
  match last_activity with
  | None => "Never"
  | Some t =>
      let diff := timedelta.between now_ t in
      if 0 <? timedelta.days diff
      then str_of_int (timedelta.days diff) +:+ " days ago"
      else if 3600 <? timedelta.seconds diff
      then str_of_int (timedelta.seconds diff / 3600) +:+ " hours ago"
      else if 60 <? timedelta.seconds diff
      then str_of_int (timedelta.seconds diff / 60) +:+ " minutes ago"
      else "Just now"
  end.

(** The contract's words, "taking the floor (integer) of each unit and
    preferring the largest applicable unit", on the elapsed microseconds:
    a unit applies when at least one whole unit has elapsed. *)
Definition largest_unit_label (elapsed : Z) : string :=
  let us := timedelta.us_per_second in
  if 1 <=? elapsed / (86400 * us) then str_of_int (elapsed / (86400 * us)) +:+ " days ago"
  else if 1 <=? elapsed / (3600 * us) then str_of_int (elapsed / (3600 * us)) +:+ " hours ago"
  else if 1 <=? elapsed / (60 * us) then str_of_int (elapsed / (60 * us)) +:+ " minutes ago"
  else "Just now".

End UserExperienceEnhancements.


(** ** backend_integration.py *)

(** The backend process the bridge drives: [EmailAutomationApp] and the
    scheduler and reply tracker it owns, all in [email_automation]. *)
Class Backend (W : Type) : Type := {
  BackendConfig : Type;
  BackendDatabase : Type;
  EmailAutomationApp : Type;
  SequenceScheduler : Type;
  ReplyTracker : Type;
  (** [config = Config(); EmailAutomationApp(config)] *)
  new_app : io W EmailAutomationApp;
  (** [await app.initialize()] *)
  app_initialize : EmailAutomationApp -> io W unit;
  (** [app.scheduler] and [app.reply_tracker]; [None] is the only falsy one. *)
  app_scheduler : EmailAutomationApp -> io W (option SequenceScheduler);
  app_reply_tracker : EmailAutomationApp -> io W (option ReplyTracker);
  app_cleanup : EmailAutomationApp -> io W unit;
  scheduler_start : SequenceScheduler -> io W unit;
  scheduler_shutdown : SequenceScheduler -> io W unit;
  scheduler_process_due_emails : SequenceScheduler -> io W unit;
  tracker_scan_inbox : ReplyTracker -> io W unit
}.

Module BackendIntegration.
Section Bridge.
Context {W : Type} `{B : Backend W}.
Local Open Scope io_scope.

(** The attributes of the [backend] singleton. *)
Record t : Type := Build {
  _config : option BackendConfig;
  _db_manager : option BackendDatabase;
  _scheduler : option SequenceScheduler;
  _reply_tracker : option ReplyTracker;
  _app_instance : option EmailAutomationApp
}.

(** [__init__] *)
Definition init : t := Build None None None None None.

(** A bridge method runs over the singleton and the backend's world. *)
Definition method (A : Type) : Type := io (t * W) A.

Definition lift {A} (m : io W A) : method A :=
  fun '(self, w) => let '(r, w') := m w in (r, (self, w')).

Definition get {A} (field : t -> A) : method A :=
  fun '(self, w) => (Returns (field self), (self, w)).

Definition set_app_instance (a : option EmailAutomationApp) : method unit :=
  fun '(self, w) =>
    (Returns tt, (Build (_config self) (_db_manager self) (_scheduler self)
                    (_reply_tracker self) a, w)).

Definition set_scheduler (s : option SequenceScheduler) : method unit :=
  fun '(self, w) =>
    (Returns tt, (Build (_config self) (_db_manager self) s
                    (_reply_tracker self) (_app_instance self), w)).

Definition set_reply_tracker (r : option ReplyTracker) : method unit :=
  fun '(self, w) =>
    (Returns tt, (Build (_config self) (_db_manager self) (_scheduler self)
                    r (_app_instance self), w)).

(** [self._app_instance.<name>] *)
Definition app_instance_attr (name : string) : method EmailAutomationApp :=
  do inst <- get _app_instance;
  attr inst name.

(** The four statements of [_initialize_app]. *)

(** [config = Config(); self._app_instance = EmailAutomationApp(config)] *)
Definition construct_app : method unit :=
  do app <- lift new_app;
  set_app_instance (Some app).

(** [await self._app_instance.initialize()] *)
Definition initialize_app : method unit :=
  do a <- app_instance_attr "initialize";
  lift (app_initialize a).

(** [self._scheduler = self._app_instance.scheduler] *)
Definition publish_scheduler : method unit :=
  do a <- app_instance_attr "scheduler";
  do s <- lift (app_scheduler a);
  set_scheduler s.

(** [self._reply_tracker = self._app_instance.reply_tracker] *)
Definition publish_reply_tracker : method unit :=
  do a <- app_instance_attr "reply_tracker";
  do r <- lift (app_reply_tracker a);
  set_reply_tracker r.

Definition _initialize_app : method unit :=
  try_except
    (run construct_app;
     run initialize_app;
     run publish_scheduler;
     publish_reply_tracker)
    (fun e => raise e).

(** [if not self._app_instance: await self._initialize_app()]; an app object
    is truthy, only [None] is not. *)
Definition ensure_app : method unit :=
  do inst <- get _app_instance;
  match inst with
  | None => _initialize_app
  | Some _ => ret tt
  end.

Definition start_scheduler : method (bool * string) :=
  try_except
    (run ensure_app;
     do s <- get _scheduler;
     match s with
     | Some sched =>
         run lift (scheduler_start sched);
         ret (true, "Scheduler started successfully")
     | None => ret (false, "Scheduler not available")
     end)
    (fun e => ret (false, "Error starting scheduler: " +:+ str_of_exn e)).

Definition stop_scheduler : method (bool * string) :=
  try_except
    (run ensure_app;
     do s <- get _scheduler;
     match s with
     | Some sched =>
         run lift (scheduler_shutdown sched);
         ret (true, "Scheduler stopped successfully")
     | None => ret (false, "Scheduler not available")
     end)
    (fun e => ret (false, "Error stopping scheduler: " +:+ str_of_exn e)).

Definition process_due_emails : method (bool * string) :=
  try_except
    (run ensure_app;
     do s <- get _scheduler;
     match s with
     | Some sched =>
         run lift (scheduler_process_due_emails sched);
         ret (true, "Email processing completed")
     | None => ret (false, "Scheduler not available")
     end)
    (fun e => ret (false, "Error processing emails: " +:+ str_of_exn e)).

Definition scan_for_replies : method (bool * string) :=
  try_except
    (run ensure_app;
     do r <- get _reply_tracker;
     match r with
     | Some tracker =>
         run lift (tracker_scan_inbox tracker);
         ret (true, "Reply scanning completed")
     | None => ret (false, "Reply tracker not available")
     end)
    (fun e => ret (false, "Error scanning replies: " +:+ str_of_exn e)).

(** The handler only logs: a failing [cleanup] of the app leaves every
    attribute as it was. *)
Definition cleanup : method unit :=
  try_except
    (do inst <- get _app_instance;
     run match inst with
         | Some app => lift (app_cleanup app)
         | None => ret tt
         end;
     fun '(_, w) => (Returns tt, (init, w)))
    (fun e => ret tt).

(** The four control operations, by name. *)
Inductive operation : Type :=
  | StartScheduler
  | StopScheduler
  | ProcessDueEmails
  | ScanForReplies.

Definition call (op : operation) : method (bool * string) :=
  match op with
  | StartScheduler => start_scheduler
  | StopScheduler => stop_scheduler
  | ProcessDueEmails => process_due_emails
  | ScanForReplies => scan_for_replies
  end.

(** The session is READY when the app and what it owns are in place. *)
Definition ready (self : t) : bool :=
  bool_decide (is_Some (_app_instance self))
  && bool_decide (is_Some (_scheduler self))
  && bool_decide (is_Some (_reply_tracker self)).

(** *** One request at a time is not guaranteed: the statements of a call

    [run.py] serves with [threaded=True]: each request runs its call in a
    thread of its own, on the one [backend] singleton.  A thread is at one of the statements below; a
    step runs that statement on the shared attributes. *)
Inductive pc : Type :=
  | AtCheck              (* if not self._app_instance: *)
  | AtConstruct          (* self._app_instance = EmailAutomationApp(config) *)
  | AtInitialize         (* await self._app_instance.initialize() *)
  | AtPublishScheduler   (* self._scheduler = self._app_instance.scheduler *)
  | AtPublishTracker     (* self._reply_tracker = self._app_instance.reply_tracker *)
  | AtUse                (* if self._scheduler: ... return ... *)
  | Done (result : bool * string).

Definition error_prefix (op : operation) : string :=
  match op with
  | StartScheduler => "Error starting scheduler: "
  | StopScheduler => "Error stopping scheduler: "
  | ProcessDueEmails => "Error processing emails: "
  | ScanForReplies => "Error scanning replies: "
  end.

(** The part of a call after the lazy initialisation. *)
Definition use (op : operation) : method (bool * string) :=
  match op with
  | StartScheduler =>
      do s <- get _scheduler;
      match s with
      | Some sched => run lift (scheduler_start sched);
                      ret (true, "Scheduler started successfully")
      | None => ret (false, "Scheduler not available")
      end
  | StopScheduler =>
      do s <- get _scheduler;
      match s with
      | Some sched => run lift (scheduler_shutdown sched);
                      ret (true, "Scheduler stopped successfully")
      | None => ret (false, "Scheduler not available")
      end
  | ProcessDueEmails =>
      do s <- get _scheduler;
      match s with
      | Some sched => run lift (scheduler_process_due_emails sched);
                      ret (true, "Email processing completed")
      | None => ret (false, "Scheduler not available")
      end
  | ScanForReplies =>
      do r <- get _reply_tracker;
      match r with
      | Some tracker => run lift (tracker_scan_inbox tracker);
                        ret (true, "Reply scanning completed")
      | None => ret (false, "Reply tracker not available")
      end
  end.

(** The message of a call that finds nothing to act on. *)
Definition not_available (op : operation) : string :=
  match op with
  | ScanForReplies => "Reply tracker not available"
  | _ => "Scheduler not available"
  end.

(** [except Exception as e: return False, f"Error ...: {str(e)}"] *)
Definition handler (op : operation) (e : exn) : method (bool * string) :=
  ret (false, error_prefix op +:+ str_of_exn e).

(** Run one statement; an exception ends the call through its handler. *)
Definition advance {A} (op : operation) (m : method A) (next : A -> pc)
    (shared : t * W) : pc * (t * W) :=
  match m shared with
  | (Returns a, shared') => (next a, shared')
  | (Raises e, shared') => (Done (false, error_prefix op +:+ str_of_exn e), shared')
  end.

Definition step (op : operation) (at_ : pc) (shared : t * W) : pc * (t * W) :=
  match at_ with
  | AtCheck =>
      advance op (get _app_instance)
        (fun inst => match inst with None => AtConstruct | Some _ => AtUse end) shared
  | AtConstruct => advance op construct_app (fun _ => AtInitialize) shared
  | AtInitialize => advance op initialize_app (fun _ => AtPublishScheduler) shared
  | AtPublishScheduler => advance op publish_scheduler (fun _ => AtPublishTracker) shared
  | AtPublishTracker => advance op publish_reply_tracker (fun _ => AtUse) shared
  | AtUse => advance op (use op) Done shared
  | Done r => (Done r, shared)
  end.

(** One request on its own: [steps] statements from [at_]. *)
Fixpoint run_alone (op : operation) (steps : nat) (at_ : pc) (shared : t * W)
  : pc * (t * W) :=
  match steps with
  | O => (at_, shared)
  | S k => let '(next, shared') := step op at_ shared in run_alone op k next shared'
  end.

(** Two requests in flight. *)
Inductive thread : Type := First | Second.

Record requests : Type := Requests {
  shared : t * W;
  first : pc;
  second : pc
}.

Definition step_thread (op1 op2 : operation) (who : thread) (c : requests) : requests :=
  match who with
  | First => let '(p, sh) := step op1 (first c) (shared c) in Requests sh p (second c)
  | Second => let '(p, sh) := step op2 (second c) (shared c) in Requests sh (first c) p
  end.

(** A schedule says which thread runs next. *)
Definition interleave (op1 op2 : operation) (schedule : list thread) (c : requests)
  : requests :=
  fold_left (fun c who => step_thread op1 op2 who c) schedule c.

Definition thread_eq_dec (a b : thread) : {a = b} + {a <> b}.
Proof. decide equality. Defined.

Definition finished (c : requests) : option ((bool * string) * (bool * string)) :=
  match first c, second c with
  | Done r1, Done r2 => Some (r1, r2)
  | _, _ => None
  end.

(** A thread outside the initialising statements, and the statements it
    still has to run once the app instance is in place. *)
Definition settled (at_ : pc) : bool :=
  match at_ with
  | AtCheck | AtUse | Done _ => true
  | _ => false
  end.

Definition remaining (at_ : pc) : nat :=
  match at_ with
  | AtCheck => 2
  | AtUse => 1
  | _ => 0
  end.

End Bridge.
End BackendIntegration.

(** *** Counting initialisations

    Any backend, with a counter beside its world that goes up each time
    [initialize] is entered. *)
Module Counting.
Section Wrap.
Context {W : Type} (B : Backend W).

Definition beside {A} (m : io W A) : io (W * nat) A :=
  fun '(w, n) => let '(r, w') := m w in (r, (w', n)).

Definition counted {A} (m : io W A) : io (W * nat) A :=
  fun '(w, n) => let '(r, w') := m w in (r, (w', S n)).

#[local] Instance backend : Backend (W * nat) := {
  BackendConfig := BackendConfig (W := W);
  BackendDatabase := BackendDatabase (W := W);
  EmailAutomationApp := EmailAutomationApp (W := W);
  SequenceScheduler := SequenceScheduler (W := W);
  ReplyTracker := ReplyTracker (W := W);
  new_app := beside new_app;
  app_initialize := fun a => counted (app_initialize a);
  app_scheduler := fun a => beside (app_scheduler a);
  app_reply_tracker := fun a => beside (app_reply_tracker a);
  app_cleanup := fun a => beside (app_cleanup a);
  scheduler_start := fun s => beside (scheduler_start s);
  scheduler_shutdown := fun s => beside (scheduler_shutdown s);
  scheduler_process_due_emails := fun s => beside (scheduler_process_due_emails s);
  tracker_scan_inbox := fun r => beside (tracker_scan_inbox r)
}.

Definition initialisations (c : BackendIntegration.t (B := backend) * (W * nat)) : nat :=
  snd (snd c).

(** What holds of two requests once the session [self1] is in place and
    [initialize] has been entered [n] times: neither request is inside
    the initialising statements. *)
Definition in_place (self1 : BackendIntegration.t (B := backend)) (n : nat)
    (c : BackendIntegration.requests (B := backend)) : Prop :=
  fst (BackendIntegration.shared c) = self1
  /\ initialisations (BackendIntegration.shared c) = n
  /\ BackendIntegration.settled (BackendIntegration.first c) = true
  /\ BackendIntegration.settled (BackendIntegration.second c) = true.
End Wrap.
End Counting.

(** *** A backend to run the bridge on

    Its world is the list of outcomes the coming [initialize] calls will
    have: [None] to succeed, [Some msg] to raise.  Everything else succeeds;
    an exhausted list means success. *)
Module Scripted.
Definition world : Type := list (option string).

Definition initialize : io world unit :=
  fun w =>
    match w with
    | Some msg :: rest => (Raises (Exception msg), rest)
    | None :: rest => (Returns tt, rest)
    | [] => (Returns tt, [])
    end.

#[local] Instance backend : Backend world := {
  BackendConfig := unit;
  BackendDatabase := unit;
  EmailAutomationApp := unit;
  SequenceScheduler := unit;
  ReplyTracker := unit;
  new_app := ret tt;
  app_initialize := fun _ => initialize;
  app_scheduler := fun _ => ret (Some tt);
  app_reply_tracker := fun _ => ret (Some tt);
  app_cleanup := fun _ => ret tt;
  scheduler_start := fun _ => ret tt;
  scheduler_shutdown := fun _ => ret tt;
  scheduler_process_due_emails := fun _ => ret tt;
  tracker_scan_inbox := fun _ => ret tt
}.
End Scripted.

(** ** Inputs of the repository's tests and of the contract's examples *)

(** John of Acme Corp, as [test_add_recipient_valid_data] submits him. *)
Definition john : gmap string string :=
  <["first_name" := "John"]> (<["company" := "Acme Corp"]> (<["role" := "CEO"]>
    (<["email" := "john@acme.com"]> ∅))).

(** An empty first name. *)
Definition no_first_name : gmap string string :=
  <["first_name" := ""]> (<["company" := "Acme"]> (<["email" := "a@b.com"]> ∅)).

(** ** database.py: class AddRecipientForm *)

Module AddRecipientForm.

Record t : Type := Build {
  first_name : string;
  company : string;
  role : string;
  email : string;
  errors : list string
}.

(** [__init__] *)
Definition init (form_data : gmap string string) : t :=
  Build (strip (default "" (form_data !! "first_name")))
        (strip (default "" (form_data !! "company")))
        (strip (default "" (form_data !! "role")))
        (lower (strip (default "" (form_data !! "email"))))
        [].




End AddRecipientForm.

(** ** What the facade's checks and loops see *)

(** The fields a submission must carry to pass the first check of
    [add_recipient]: present and not empty. *)
Definition filled (recipient_data : gmap string string) (fn co em : string) : Prop :=
  recipient_data !! "first_name" = Some fn /\ fn <> ""
  /\ recipient_data !! "company" = Some co /\ co <> ""
  /\ recipient_data !! "email" = Some em /\ em <> "".


(** The entry the loop of [get_recipients_with_status] builds from a row
    with all its eleven columns. *)
Definition entry_of (row : list value) : RecipientStatus.t :=
  RecipientStatus.Build (nth 0 row VNone) (nth 1 row VNone) (nth 2 row VNone)
    (nth 3 row VNone) (nth 4 row VNone)
    (truthy (nth 6 row VNone)) (truthy (nth 7 row VNone)) (truthy (nth 8 row VNone))
    (truthy (nth 9 row VNone))
    (UIDatabase._calculate_status (nth 5 row VNone) (truthy (nth 9 row VNone)))
    (nth 10 row VNone).

(** A count as the dashboard may show it: a truthy value, or the integer 0
    that [row[i] or 0] puts in the place of anything falsy. *)
Definition shown_count (v : value) : Prop := truthy v = true \/ v = VInt 0.

(** ** A store that answers every query with the rows it was given *)
Module Canned.

Definition world : Type := list (list value).

#[local] Instance store : Store world := {
  DatabaseManager := unit;
  RecipientRepository := unit;
  EmailSequenceRepository := unit;
  execute_query := fun _ _ w => (Returns w, w);
  get_by_email := fun _ _ => ret None;
  recipient_validate := fun _ => ret true;
  recipient_create := fun _ _ => ret 1;
  sequence_create := fun _ _ => ret tt;
  datetime_now := fun w => (0, w)
}.

Definition connected : UIDatabase.t (S := store) :=
  UIDatabase.Build (Some tt) (Some tt) (Some tt).

End Canned.


(** ** operational_safety.py: the display helpers and the database error texts *)

(** Stored values can be compared. *)
#[export] Instance value_eq_dec : EqDecision value.
Proof. solve_decision. Defined.

Module StatusDisplay.

(** [" → ".join(parts)] *)
Fixpoint join (sep : string) (parts : list string) : string :=
  match parts with
  | [] => ""
  | [p] => p
  | p :: rest => p +:+ sep +:+ join sep rest
  end.

(** [UserExperienceEnhancements.format_email_status] *)
Definition format_email_status (first_mail reminder1 reminder2 replied : bool) : string :=
  if replied then "✅ Replied (sequence stopped)"
  else
    let status_parts :=
      (if first_mail then ["📧 First mail sent"] else [])
      ++ (if reminder1 then ["📧 Reminder 1 sent"] else [])
      ++ (if reminder2 then ["📧 Reminder 2 sent"] else []) in
    match status_parts with
    | [] => "⏳ Not started"
    | _ => join " → " status_parts
    end.

(** [UserExperienceEnhancements.get_status_color_class] *)
Definition get_status_color_class (status : string) : string :=
  let status_lower := lower status in
  if contains "replied" status_lower then "status-success"
  else if contains "in sequence" status_lower then "status-active"
  else if contains "not started" status_lower then "status-pending"
  else if contains "stopped" status_lower then "status-stopped"
  else "status-unknown".

End StatusDisplay.

Module ErrorMessageEnhancer.

Definition duplicate_text : string :=
  "This email address is already in the system. Each recipient can only be added once.".

Definition database_fallback : string :=
  "A database error occurred. Please try again or contact support if the problem persists.".

Definition enhance_database_error (error : string) : string :=
  let error_lower := lower error in
  if contains "unique constraint" error_lower || contains "already exists" error_lower
  then duplicate_text
  else if contains "foreign key" error_lower
  then "There was a data consistency issue. Please try again or contact support."
  else if contains "connection" error_lower || contains "timeout" error_lower
  then "Database connection issue. Please check your connection and try again."
  else if contains "permission" error_lower || contains "access denied" error_lower
  then "Database access issue. Please check system permissions."
  else database_fallback.

End ErrorMessageEnhancer.


(** ** backend_integration.py and routes/dashboard.py: reading the scheduler's status *)

(** A value of a status dictionary. *)
Inductive pyval : Type :=
  | PNone
  | PBool (b : bool)
  | PInt (z : Z)
  | PStr (s : string).

(** [try: body / finally: finalizer]: the finalizer runs on both ways out;
    if it raises, its exception is the one that leaves. *)
Definition try_finally {W A} (body : io W A) (finalizer : io W unit) : io W A :=
  fun w =>
    let '(r, w') := body w in
    match finalizer w' with
    | (Returns _, w'') => (r, w'')
    | (Raises e, w'') => (Raises e, w'')
    end.

(** What the status check builds for itself on every call: a configuration,
    a database manager and a scheduler of [email_automation]. *)
Class SchedulerProbe (W : Type) : Type := {
  ProbeConfig : Type;
  ProbeDatabase : Type;
  ProbeScheduler : Type;
  (** [Config()] *)
  probe_config : io W ProbeConfig;
  (** [DatabaseManager(config.database_url)]; the object is truthy *)
  probe_database : ProbeConfig -> io W ProbeDatabase;
  (** [await db_manager.initialize()] and [await db_manager.close()] *)
  probe_initialize : ProbeDatabase -> io W unit;
  probe_close : ProbeDatabase -> io W unit;
  (** [SequenceScheduler(config, db_manager)] *)
  probe_scheduler : ProbeConfig -> ProbeDatabase -> io W ProbeScheduler;
  (** [await scheduler.get_scheduler_status()] *)
  probe_status : ProbeScheduler -> io W (gmap string pyval)
}.

Module StatusCheck.
Section Check.
Context {W : Type} `{P : SchedulerProbe W}.
Local Open Scope io_scope.

(** [BackendIntegration.get_database_manager], around the body of the
    [async with]: the manager is closed on the way out once it exists, and
    an exception of [close] is only logged. *)
Definition get_database_manager {A} (body : ProbeDatabase -> io W A) : io W A :=
  do config <- probe_config;
  do db_manager <- probe_database config;
  try_finally
    (run probe_initialize db_manager;
     body db_manager)
    (try_except (probe_close db_manager) (fun _ => ret tt)).

(** [BackendIntegration.get_scheduler_status] *)
Definition get_scheduler_status : io W (gmap string pyval) :=
  try_except
    (get_database_manager (fun db_manager =>
       do config <- probe_config;
       do scheduler <- probe_scheduler config db_manager;
       probe_status scheduler))
    (fun e => ret (<["scheduler_running" := PBool false]>
                     (<["error" := PStr (str_of_exn e)]> ∅))).

(** [routes/dashboard.py: get_scheduler_status] *)
Definition dashboard_get_scheduler_status : io W pyval :=
  try_except
    (do config <- probe_config;
     do db_manager <- probe_database config;
     run probe_initialize db_manager;
     do scheduler <- probe_scheduler config db_manager;
     do status <- probe_status scheduler;
     run probe_close db_manager;
     ret (default (PBool false) (status !! "scheduler_running")))
    (fun e => ret (PBool false)).

End Check.
End StatusCheck.

(** Any probe, with two counters beside its world: the database managers
    constructed and the calls of [close]. *)
Module ProbeCounting.
Section Wrap.
Context {W : Type} (P : SchedulerProbe W).

Definition beside {A} (m : io W A) : io (W * (nat * nat)) A :=
  fun '(w, n) => let '(r, w') := m w in (r, (w', n)).

Definition constructing {A} (m : io W A) : io (W * (nat * nat)) A :=
  fun '(w, (made, closed)) =>
    match m w with
    | (Returns a, w') => (Returns a, (w', (S made, closed)))
    | (Raises e, w') => (Raises e, (w', (made, closed)))
    end.

Definition closing {A} (m : io W A) : io (W * (nat * nat)) A :=
  fun '(w, (made, closed)) => let '(r, w') := m w in (r, (w', (made, S closed))).

#[local] Instance probe : SchedulerProbe (W * (nat * nat)) := {
  ProbeConfig := ProbeConfig (W := W);
  ProbeDatabase := ProbeDatabase (W := W);
  ProbeScheduler := ProbeScheduler (W := W);
  probe_config := beside probe_config;
  probe_database := fun c => constructing (probe_database c);
  probe_initialize := fun d => beside (probe_initialize d);
  probe_close := fun d => closing (probe_close d);
  probe_scheduler := fun c d => beside (probe_scheduler c d);
  probe_status := fun s => beside (probe_status s)
}.

Definition constructed (x : W * (nat * nat)) : nat := fst (snd x).
Definition closed (x : W * (nat * nat)) : nat := snd (snd x).
End Wrap.
End ProbeCounting.

(** A probe to run the status checks on: its world lists the outcomes of
    the coming [initialize] calls, [None] to succeed and [Some msg] to
    raise; the scheduler reports that it is running. *)
Module ScriptedProbe.
Definition world : Type := list (option string).

#[local] Instance probe : SchedulerProbe world := {
  ProbeConfig := unit;
  ProbeDatabase := unit;
  ProbeScheduler := unit;
  probe_config := ret tt;
  probe_database := fun _ => ret tt;
  probe_initialize := fun _ => Scripted.initialize;
  probe_close := fun _ => ret tt;
  probe_scheduler := fun _ _ => ret tt;
  probe_status := fun _ => ret (<["scheduler_running" := PBool true]> ∅)
}.
End ScriptedProbe.

(** ** routes/control.py *)

Module ControlRoutes.
Section Routes.
Context {W : Type} `{B : Backend W}.
Local Open Scope io_scope.

(** The module's globals. *)
Record globals : Type := Globals {
  _scheduler : option SequenceScheduler;
  _reply_tracker : option ReplyTracker;
  _app_instance : option EmailAutomationApp
}.

Definition start : globals := Globals None None None.

Definition lift {A} (m : io W A) : io (globals * W) A :=
  fun '(g, w) => let '(r, w') := m w in (r, (g, w')).

Definition get {A} (field : globals -> A) : io (globals * W) A :=
  fun '(g, w) => (Returns (field g), (g, w)).

Definition set_app_instance (a : option EmailAutomationApp) : io (globals * W) unit :=
  fun '(g, w) => (Returns tt, (Globals (_scheduler g) (_reply_tracker g) a, w)).

Definition set_scheduler (s : option SequenceScheduler) : io (globals * W) unit :=
  fun '(g, w) => (Returns tt, (Globals s (_reply_tracker g) (_app_instance g), w)).

Definition set_reply_tracker (r : option ReplyTracker) : io (globals * W) unit :=
  fun '(g, w) => (Returns tt, (Globals (_scheduler g) r (_app_instance g), w)).

(** [_app_instance.<name>] *)
Definition app_instance_attr (name : string) : io (globals * W) EmailAutomationApp :=
  do inst <- get _app_instance;
  attr inst name.

Definition get_backend_instances
  : io (globals * W)
       (option SequenceScheduler * option ReplyTracker * option EmailAutomationApp) :=
  try_except
    (do inst <- get _app_instance;
     run match inst with
         | None =>
             do app <- lift new_app;
             run set_app_instance (Some app);
             do a1 <- app_instance_attr "initialize";
             run lift (app_initialize a1);
             do a2 <- app_instance_attr "scheduler";
             do s <- lift (app_scheduler a2);
             run set_scheduler s;
             do a3 <- app_instance_attr "reply_tracker";
             do r <- lift (app_reply_tracker a3);
             set_reply_tracker r
         | Some _ => ret tt
         end;
     do s <- get _scheduler;
     do r <- get _reply_tracker;
     do a <- get _app_instance;
     ret (s, r, a))
    (fun e => ret (None, None, None)).

(** A flashed message: text and category. *)
Definition flash : Type := (string * string)%type.

(** The four POST routes, by the operation they trigger. *)
Definition success_text (op : BackendIntegration.operation) : string :=
  match op with
  | BackendIntegration.StartScheduler => "Email scheduler started successfully."
  | BackendIntegration.StopScheduler => "Email scheduler stopped successfully."
  | BackendIntegration.ProcessDueEmails => "Email sending cycle completed successfully."
  | BackendIntegration.ScanForReplies => "Reply checking completed successfully."
  end.

Definition error_text (op : BackendIntegration.operation) : string :=
  match op with
  | BackendIntegration.StartScheduler => "Error starting scheduler: "
  | BackendIntegration.StopScheduler => "Error stopping scheduler: "
  | BackendIntegration.ProcessDueEmails => "Error running email cycle: "
  | BackendIntegration.ScanForReplies => "Error running reply check: "
  end.

Definition unavailable_text (op : BackendIntegration.operation) : string :=
  match op with
  | BackendIntegration.ScanForReplies =>
      "Reply tracker not available. Check system configuration."
  | _ => "Scheduler not available. Check system configuration."
  end.

(** The backend call of a route, on what [get_backend_instances] returned;
    [None] when the object the route needs is missing. *)
Definition trigger (op : BackendIntegration.operation)
    (found : option SequenceScheduler * option ReplyTracker * option EmailAutomationApp)
  : option (io W unit) :=
  let '(scheduler, reply_tracker, _) := found in
  match op with
  | BackendIntegration.StartScheduler => scheduler_start <$> scheduler
  | BackendIntegration.StopScheduler => scheduler_shutdown <$> scheduler
  | BackendIntegration.ProcessDueEmails => scheduler_process_due_emails <$> scheduler
  | BackendIntegration.ScanForReplies => tracker_scan_inbox <$> reply_tracker
  end.

(** [start_scheduler], [stop_scheduler], [run_email_cycle] and
    [run_reply_check]: what the route flashes before it redirects to the
    panel.  [csrf] is what [validate_csrf] does with the token of the form. *)
Definition route (op : BackendIntegration.operation) (csrf : outcome unit)
  : io (globals * W) (list flash) :=
  try_except
    (run (fun x => (csrf, x));
     do found <- get_backend_instances;
     match trigger op found with
     | None => ret [(unavailable_text op, "error")]
     | Some action =>
         run lift action;
         ret [(success_text op, "success")]
     end)
    (fun e => ret [(error_text op +:+ str_of_exn e, "error")]).

End Routes.
End ControlRoutes.

(** The globals of [routes/control.py] beside the attributes of the bridge:
    the three both keep. *)
Definition as_bridge {W : Type} `{B : Backend W} (g : ControlRoutes.globals)
  : BackendIntegration.t :=
  BackendIntegration.Build None None (ControlRoutes._scheduler g)
    (ControlRoutes._reply_tracker g) (ControlRoutes._app_instance g).

(* ================================================================== *)
(** * Part II. Properties *)
(* ================================================================== *)

(** ** Status Projector *)

Section StatusProjector.
Import Tables.

Lemma fold_max_flags (zs : list Z) (z : Z) :
  (z = 0 \/ z = 1) ->
  Forall (fun x => x = 0 \/ x = 1) zs ->
  fold_left Z.max zs z = if (z =? 1) || existsb (Z.eqb 1) zs then 1 else 0.
Proof.
  intros Hz Hzs. revert z Hz.
  induction Hzs as [|x zs Hx _ IH]; intros z Hz; simpl.
  - destruct Hz; subst; reflexivity.
  - rewrite IH by (destruct Hz, Hx; subst; auto).
    destruct Hz, Hx; subst; reflexivity.
Qed.

Lemma case_when_flag cond o : case_when cond o = 0 \/ case_when cond o = 1.
Proof. destruct o as [es|]; simpl; [destruct (cond es)|]; auto. Qed.

(** [bool(MAX(CASE WHEN cond THEN 1 ELSE 0 END))] over a group that is not
    empty says whether some row of the group meets the condition. *)
Lemma truthy_max_case_when cond (group : list (option EmailSequence.t)) :
  group <> [] ->
  truthy (sql_max (map (case_when cond) group))
  = existsb (fun o => match o with Some es => cond es | None => false end) group.
Proof.
  destruct group as [|o rest]; [congruence|]; intros _.
  simpl. rewrite fold_max_flags.
  - assert (Hrest : existsb (Z.eqb 1) (map (case_when cond) rest)
                    = existsb (fun o => match o with Some es => cond es | None => false end) rest).
    { induction rest as [|o' rest IH]; simpl; [reflexivity|].
      rewrite IH. f_equal. destruct o' as [es|]; simpl; [destruct (cond es)|]; reflexivity. }
    rewrite Hrest.
    destruct o as [es|]; simpl; [destruct (cond es)|]; simpl;
      try reflexivity;
      destruct (existsb _ rest); reflexivity.
  - apply case_when_flag.
  - apply List.Forall_forall. intros x Hx. apply in_map_iff in Hx as (o' & <- & _).
    apply case_when_flag.
Qed.

Lemma left_join_nonempty rid steps : left_join rid steps <> [].
Proof.
  unfold left_join. destruct (List.filter _ steps); simpl; congruence.
Qed.

(** The [has_replied] column of a recipient is set exactly when one of the
    recipient's own step rows has its replied flag set. *)
Lemma has_replied_column_any rid (steps : list EmailSequence.t) :
  truthy (has_replied_column (left_join rid steps))
  = existsb EmailSequence.replied
      (List.filter (fun es => EmailSequence.recipient_id es =? rid) steps).
Proof.
  unfold has_replied_column.
  rewrite truthy_max_case_when by apply left_join_nonempty.
  unfold left_join.
  destruct (List.filter _ steps) as [|es rest]; [reflexivity|].
  generalize (es :: rest). intros l.
  induction l as [|x l IH]; simpl; [reflexivity|]. now rewrite IH.
Qed.

(** The facade's loop body, on a row of the status query: the label it
    stores is [_calculate_status] of the stored status and of the
    [has_replied] column. *)
Lemma recipient_status_of_row_label {W : Type} `{S : Store W}
    (steps : list EmailSequence.t) (r : recipient_row) (w : W) :
  exists entry,
    UIDatabase.recipient_status_of_row (status_row steps r) w = (Returns entry, w)
    /\ RecipientStatus.current_status entry
       = UIDatabase._calculate_status (VStr (Recipient.status (row_data r)))
           (truthy (has_replied_column (left_join (row_id r) steps)))
    /\ RecipientStatus.has_replied entry
       = existsb EmailSequence.replied
           (List.filter (fun es => EmailSequence.recipient_id es =? row_id r) steps).
Proof.
  eexists. split; [reflexivity|]. simpl. split; [reflexivity|].
  apply has_replied_column_any.
Qed.

(** C1. The derived status, for any stored status value (text or not) and
    any step rows: if one of the recipient's steps is marked replied the
    label is "Replied (sequence stopped)"; otherwise 'active' gives
    "In sequence", 'pending' gives "Not started", 'stopped' gives
    "Stopped manually" and every other value gives "Unknown".  The
    function is total: it yields a label on every input. *)
Theorem calculate_status_precedence
    (recipient_status : value) (rid : Z) (steps : list EmailSequence.t) :
  let mine := List.filter (fun es => EmailSequence.recipient_id es =? rid) steps in
  let label := UIDatabase._calculate_status recipient_status
                 (truthy (has_replied_column (left_join rid steps))) in
  (existsb EmailSequence.replied mine = true -> label = "Replied (sequence stopped)")
  /\ (existsb EmailSequence.replied mine = false ->
        (recipient_status = VStr "active" -> label = "In sequence")
        /\ (recipient_status = VStr "pending" -> label = "Not started")
        /\ (recipient_status = VStr "stopped" -> label = "Stopped manually")
        /\ (recipient_status <> VStr "active" -> recipient_status <> VStr "pending" ->
            recipient_status <> VStr "stopped" -> label = "Unknown")).
Proof.
  intros mine label. subst label. rewrite has_replied_column_any. fold mine.
  split; intros ->; [reflexivity|].
  unfold UIDatabase._calculate_status.
  repeat split; try (intros ->; reflexivity).
  intros Ha Hp Hs. destruct recipient_status as [|z|s]; try reflexivity.
  destruct (String.eqb_spec s "active"); [congruence|].
  destruct (String.eqb_spec s "pending"); [congruence|].
  destruct (String.eqb_spec s "stopped"); [congruence|].
  reflexivity.
Qed.

(** A replied step overrides the status, and a garbled status is "Unknown". *)
Lemma calculate_status_precedence_witness :
  UIDatabase._calculate_status (VStr "stopped")
    (truthy (has_replied_column (left_join 7
       [EmailSequence.Build 7 1 0 (Some 5) false; EmailSequence.Build 7 2 0 None true;
        EmailSequence.Build 7 3 0 None false])))
  = "Replied (sequence stopped)"
  /\ UIDatabase._calculate_status (VInt 42)
       (truthy (has_replied_column (left_join 7
          [EmailSequence.Build 7 1 0 None false; EmailSequence.Build 8 1 0 None true])))
     = "Unknown".
Proof.
  split.
  - apply (calculate_status_precedence (VStr "stopped") 7
             [EmailSequence.Build 7 1 0 (Some 5) false; EmailSequence.Build 7 2 0 None true;
              EmailSequence.Build 7 3 0 None false]).
    reflexivity.
  - apply (calculate_status_precedence (VInt 42) 7
             [EmailSequence.Build 7 1 0 None false; EmailSequence.Build 8 1 0 None true]).
    + reflexivity.
    + discriminate.
    + discriminate.
    + discriminate.
Defined.

End StatusProjector.

(** ** Safety Guard *)

Section SafetyGuard.
Import OperationalSafety.

(** The fields of a normalised timedelta: they add up to its length, with
    the seconds within a day and the microseconds within a second. *)
Lemma timedelta_fields (us : Z) :
  let d := timedelta.of_microseconds us in
  us = 86400000000 * timedelta.days d + 1000000 * timedelta.seconds d
       + timedelta.microseconds d
  /\ 0 <= timedelta.seconds d < 86400
  /\ 0 <= timedelta.microseconds d < 1000000.
Proof.
  unfold timedelta.of_microseconds, timedelta.us_per_day, timedelta.us_per_second.
  change (86400 * 1000000) with 86400000000. simpl.
  pose proof (Z.div_mod us 86400000000 ltac:(lia)) as Hd.
  pose proof (Z.mod_pos_bound us 86400000000 ltac:(lia)) as Hr.
  pose proof (Z.div_mod (us mod 86400000000) 1000000 ltac:(lia)) as Hs.
  pose proof (Z.mod_pos_bound (us mod 86400000000) 1000000 ltac:(lia)) as Hu.
  assert (Hm : us mod 1000000 = (us mod 86400000000) mod 1000000).
  { symmetry. apply Z.mod_unique_pos
      with (q := 86400 * (us / 86400000000) + (us mod 86400000000) / 1000000).
    - exact Hu.
    - generalize dependent ((us mod 86400000000) mod 1000000).
      generalize dependent ((us mod 86400000000) / 1000000).
      generalize dependent (us mod 86400000000).
      generalize dependent (us / 86400000000). intros; lia. }
  rewrite Hm.
  assert (0 <= (us mod 86400000000) / 1000000 < 86400).
  { split; [apply Z.div_pos; lia | apply Z.div_lt_upper_bound; lia]. }
  generalize dependent ((us mod 86400000000) mod 1000000).
  generalize dependent ((us mod 86400000000) / 1000000).
  generalize dependent (us mod 86400000000).
  generalize dependent (us / 86400000000). intros; lia.
Qed.

(** Normalising keeps the order: comparing two timedeltas field by field
    is comparing their lengths in microseconds. *)
Lemma timedelta_ltb_microseconds (a b : Z) :
  timedelta.ltb (timedelta.of_microseconds a) (timedelta.of_microseconds b) = (a <? b).
Proof.
  destruct (timedelta_fields a) as (Ha & Hsa & Hua).
  destruct (timedelta_fields b) as (Hb & Hsb & Hub).
  unfold timedelta.ltb.
  destruct (timedelta.of_microseconds a) as [da sa ua].
  destruct (timedelta.of_microseconds b) as [db sb ub].
  simpl in *.
  apply eq_true_iff_eq.
  rewrite orb_true_iff, !andb_true_iff, orb_true_iff, andb_true_iff.
  rewrite !Z.ltb_lt, !Z.eqb_eq.
  lia.
Qed.

Lemma cooldown_test (now_ last_time : Z) :
  timedelta.ltb (timedelta.between now_ last_time) (timedelta.of_minutes 1)
  = (now_ - last_time <? 60000000).
Proof.
  unfold timedelta.between, timedelta.of_minutes.
  apply timedelta_ltb_microseconds.
Qed.

(** C3. The guard's rules, in order, for the actions start and stop, any
    running flag and any recorded last attempt of the same kind (or none):
    start is denied while running, with "already running" in the reason;
    stop is denied while stopped, with "already stopped" in the reason;
    otherwise an attempt of the same kind less than 60 seconds ago denies,
    and anything else is allowed.  A stop while running is denied 30 seconds
    after the last stop and allowed 90 seconds after it. *)
Theorem validate_scheduler_operation_rules
    (session : gmap string Z) (now_ : Z) (action : string) (running : bool) :
  action = "start" \/ action = "stop" ->
  let last_attempt := session !! last_operation_key action in
  let verdict := validate_scheduler_operation session now_ action running in
  (action = "start" -> running = true ->
     fst verdict = false /\ contains "already running" (snd verdict) = true)
  /\ (action = "stop" -> running = false ->
        fst verdict = false /\ contains "already stopped" (snd verdict) = true)
  /\ ((action = "start" /\ running = false) \/ (action = "stop" /\ running = true) ->
        (forall t, last_attempt = Some t -> now_ - t < seconds 60 ->
           verdict = (false, "Please wait before " +:+ action
                               +:+ "ing the scheduler again (minimum 1 minute interval)"))
        /\ (forall t, last_attempt = Some t -> seconds 60 <= now_ - t ->
              verdict = (true, "Operation allowed"))
        /\ (last_attempt = None -> verdict = (true, "Operation allowed")))
  /\ (action = "stop" -> running = true ->
        (last_attempt = Some (now_ - seconds 30) -> fst verdict = false)
        /\ (last_attempt = Some (now_ - seconds 90) -> fst verdict = true)).
Proof.
  intros Haction last_attempt verdict.
  assert (Hcool : forall t, last_attempt = Some t ->
            (String.eqb action "start" && running = false) ->
            (String.eqb action "stop" && negb running = false) ->
            verdict = if now_ - t <? 60000000
                      then (false, "Please wait before " +:+ action
                               +:+ "ing the scheduler again (minimum 1 minute interval)")
                      else (true, "Operation allowed")).
  { intros t Ht H1 H2. subst verdict last_attempt.
    unfold validate_scheduler_operation. rewrite H1, H2, Ht, cooldown_test.
    reflexivity. }
  assert (Hlt60 : forall d, d < seconds 60 -> (d <? 60000000) = true).
  { intros d Hd. apply Z.ltb_lt. unfold seconds, timedelta.us_per_second in Hd. lia. }
  assert (Hge60 : forall d, seconds 60 <= d -> (d <? 60000000) = false).
  { intros d Hd. apply Z.ltb_ge. unfold seconds, timedelta.us_per_second in Hd. lia. }
  split; [|split; [|split]].
  - intros -> ->. split; reflexivity.
  - intros -> ->. split; reflexivity.
  - intros Hpast.
    assert (H1 : String.eqb action "start" && running = false)
      by (destruct Hpast as [[-> ->]|[-> ->]]; reflexivity).
    assert (H2 : String.eqb action "stop" && negb running = false)
      by (destruct Hpast as [[-> ->]|[-> ->]]; reflexivity).
    split; [|split].
    + intros t Ht Hlt. rewrite (Hcool t Ht H1 H2), Hlt60 by exact Hlt. reflexivity.
    + intros t Ht Hge. rewrite (Hcool t Ht H1 H2), Hge60 by exact Hge. reflexivity.
    + intros Hnone. subst verdict last_attempt.
      unfold validate_scheduler_operation. rewrite H1, H2, Hnone. reflexivity.
  - intros -> ->. split; intros Ht.
    + rewrite (Hcool _ Ht eq_refl eq_refl), Hlt60; [reflexivity|].
      unfold seconds, timedelta.us_per_second. lia.
    + rewrite (Hcool _ Ht eq_refl eq_refl), Hge60; [reflexivity|].
      unfold seconds, timedelta.us_per_second. lia.
Qed.

(** A stop recorded at second 1000 is checked 30 and 90 seconds later. *)
Lemma validate_scheduler_operation_rules_witness :
  fst (validate_scheduler_operation
         (record_scheduler_operation ∅ (seconds 1000) "stop") (seconds 1030) "stop" true)
  = false
  /\ fst (validate_scheduler_operation
            (record_scheduler_operation ∅ (seconds 1000) "stop") (seconds 1090) "stop" true)
     = true.
Proof.
  split.
  - apply (validate_scheduler_operation_rules
             (record_scheduler_operation ∅ (seconds 1000) "stop") (seconds 1030) "stop" true);
      [right; reflexivity | reflexivity | reflexivity | vm_compute; reflexivity].
  - apply (validate_scheduler_operation_rules
             (record_scheduler_operation ∅ (seconds 1000) "stop") (seconds 1090) "stop" true);
      [right; reflexivity | reflexivity | reflexivity | vm_compute; reflexivity].
Defined.

(** Recording an allowed action starts its cooldown: the same action is
    denied for the next 60 seconds, the other one is not affected. *)
Lemma record_then_validate (session : gmap string Z) (t now_ : Z) :
  now_ - t < seconds 60 ->
  fst (validate_scheduler_operation
         (record_scheduler_operation session t "stop") now_ "stop" true) = false
  /\ validate_scheduler_operation
       (record_scheduler_operation session t "stop") now_ "start" false
     = validate_scheduler_operation session now_ "start" false.
Proof.
  intros Hlt. unfold validate_scheduler_operation, record_scheduler_operation. simpl.
  split.
  - rewrite lookup_insert_eq, cooldown_test.
    replace (now_ - t <? 60000000) with true; [reflexivity|].
    symmetry. apply Z.ltb_lt. unfold seconds, timedelta.us_per_second in Hlt. lia.
  - rewrite lookup_insert_ne by (vm_compute; congruence). reflexivity.
Qed.

End SafetyGuard.

(** ** Display helpers *)

(** Multiply out the products of two literals, in the goal and the context. *)
Ltac literal_products :=
  repeat match goal with
    | |- context [Z.mul (Zpos ?a) (Zpos ?b)] =>
        let v := eval vm_compute in (Z.mul (Zpos a) (Zpos b)) in
        change (Z.mul (Zpos a) (Zpos b)) with v
    | H : context [Z.mul (Zpos ?a) (Zpos ?b)] |- _ =>
        let v := eval vm_compute in (Z.mul (Zpos a) (Zpos b)) in
        change (Z.mul (Zpos a) (Zpos b)) with v in H
    end.

Section LastActivity.
Import UserExperienceEnhancements.

Lemma format_last_activity_never (now_ : Z) : format_last_activity now_ None = "Never".
Proof. reflexivity. Qed.

(** What the code prints for a timestamp [elapsed] microseconds in the
    past: whole days from one day on; below a day, whole hours once the
    whole seconds exceed 3600, whole minutes once they exceed 60, and
    "Just now" up to there. *)
Lemma format_last_activity_ranges (now_ elapsed : Z) :
  0 <= elapsed ->
  format_last_activity now_ (Some (now_ - elapsed)) =
    if seconds 86400 <=? elapsed
    then str_of_int (elapsed / seconds 86400) +:+ " days ago"
    else if seconds 3601 <=? elapsed
    then str_of_int (elapsed / seconds 3600) +:+ " hours ago"
    else if seconds 61 <=? elapsed
    then str_of_int (elapsed / seconds 60) +:+ " minutes ago"
    else "Just now".
Proof.
  intros Hpos. unfold format_last_activity, timedelta.between.
  replace (now_ - (now_ - elapsed)) with elapsed by lia.
  unfold timedelta.of_microseconds, timedelta.us_per_day, seconds,
    timedelta.us_per_second; simpl; literal_products.
  destruct (Z.leb_spec 86400000000 elapsed) as [Hday|Hday].
  - replace (0 <? elapsed / 86400000000) with true; [reflexivity|].
    symmetry. apply Z.ltb_lt. apply Z.div_str_pos. lia.
  - rewrite (Z.div_small elapsed 86400000000) by lia.
    rewrite (Z.mod_small elapsed 86400000000) by lia. simpl.
    destruct (Z.leb_spec 3601000000 elapsed) as [Hhour|Hhour].
    + replace (3600 <? elapsed / 1000000) with true
        by (symmetry; apply Z.ltb_lt; Z.div_mod_to_equations; lia).
      rewrite Z.div_div by lia. reflexivity.
    + replace (3600 <? elapsed / 1000000) with false
        by (symmetry; apply Z.ltb_ge; Z.div_mod_to_equations; lia).
      destruct (Z.leb_spec 61000000 elapsed) as [Hmin|Hmin].
      * replace (60 <? elapsed / 1000000) with true
          by (symmetry; apply Z.ltb_lt; Z.div_mod_to_equations; lia).
        rewrite Z.div_div by lia. reflexivity.
      * replace (60 <? elapsed / 1000000) with false
          by (symmetry; apply Z.ltb_ge; Z.div_mod_to_equations; lia).
        reflexivity.
Qed.

(** The examples of the contract. *)
Lemma format_last_activity_examples (now_ : Z) :
  format_last_activity now_ None = "Never"
  /\ format_last_activity now_ (Some (now_ - seconds 90)) = "1 minutes ago"
  /\ format_last_activity now_ (Some (now_ - seconds (2 * 86400))) = "2 days ago".
Proof.
  split; [reflexivity|].
  split; rewrite format_last_activity_ranges by (vm_compute; congruence); reflexivity.
Qed.

(** Away from the two thresholds the code prints the largest unit of which
    a whole one has elapsed. *)
Lemma format_last_activity_largest_unit (now_ elapsed : Z) :
  0 <= elapsed ->
  seconds 86400 <= elapsed
  \/ (elapsed / seconds 1 <> 3600 /\ elapsed / seconds 1 <> 60) ->
  format_last_activity now_ (Some (now_ - elapsed)) = largest_unit_label elapsed.
Proof.
  intros Hpos Haway. rewrite format_last_activity_ranges by exact Hpos.
  unfold largest_unit_label, seconds, timedelta.us_per_second in *.
  simpl in *; literal_products.
  destruct (Z.leb_spec 86400000000 elapsed) as [Hday|Hday].
  - replace (1 <=? elapsed / 86400000000) with true; [reflexivity|].
    symmetry. apply Z.leb_le. Z.div_mod_to_equations; lia.
  - replace (1 <=? elapsed / 86400000000) with false
      by (symmetry; apply Z.leb_gt; Z.div_mod_to_equations; lia).
    destruct Haway as [Hfar|[H3600 H60]]; [lia|].
    destruct (Z.leb_spec 3601000000 elapsed) as [Hhour|Hhour].
    + replace (1 <=? elapsed / 3600000000) with true; [reflexivity|].
      symmetry. apply Z.leb_le. Z.div_mod_to_equations; lia.
    + replace (1 <=? elapsed / 3600000000) with false
        by (symmetry; apply Z.leb_gt; Z.div_mod_to_equations; lia).
      destruct (Z.leb_spec 61000000 elapsed) as [Hmin|Hmin].
      * replace (1 <=? elapsed / 60000000) with true; [reflexivity|].
        symmetry. apply Z.leb_le. Z.div_mod_to_equations; lia.
      * replace (1 <=? elapsed / 60000000) with false; [reflexivity|].
        symmetry. apply Z.leb_gt. Z.div_mod_to_equations; lia.
Qed.

(** C9. At the thresholds the code does not prefer the largest unit: one
    hour (and up to a second more) after the timestamp it prints
    "60 minutes ago" where a whole hour has elapsed, and one minute after
    it prints "Just now" where a whole minute has elapsed. *)
Theorem format_last_activity_thresholds (now_ : Z) :
  format_last_activity now_ (Some (now_ - seconds 3600)) = "60 minutes ago"
  /\ format_last_activity now_ (Some (now_ - (seconds 3600 + 500000))) = "60 minutes ago"
  /\ largest_unit_label (seconds 3600) = "1 hours ago"
  /\ largest_unit_label (seconds 3600 + 500000) = "1 hours ago"
  /\ format_last_activity now_ (Some (now_ - seconds 60)) = "Just now"
  /\ largest_unit_label (seconds 60) = "1 minutes ago".
Proof.
  repeat split;
    try rewrite format_last_activity_ranges by (vm_compute; congruence);
    reflexivity.
Qed.

(** A timestamp one second ahead of the clock reads as 23 hours old: the
    difference normalises to minus one day plus 86399 seconds. *)
Lemma format_last_activity_future (now_ : Z) :
  format_last_activity now_ (Some (now_ + seconds 1)) = "23 hours ago".
Proof.
  unfold format_last_activity, timedelta.between.
  replace (now_ - (now_ + seconds 1)) with (- seconds 1) by lia.
  reflexivity.
Qed.

End LastActivity.

(** ** Recipient Store Facade *)

(** A handler that returns makes the whole [try] return. *)
Lemma try_except_returns {W A} (body : io W A) (handler : exn -> io W A) (w : W) :
  (forall e w', exists a w'', handler e w' = (Returns a, w'')) ->
  exists a w', try_except body handler w = (Returns a, w').
Proof.
  intros Hhandler. unfold try_except.
  destruct (body w) as [[a|e] w']; [eauto | apply Hhandler].
Qed.

Lemma absent_or_empty_falsy o : absent_or_empty o -> truthy_get o = false.
Proof. intros [->| ->]; reflexivity. Qed.

Section Facade.
Context {W : Type} `{S : Store W}.

(** C8. When the first name, the company or the email is missing or empty,
    [add_recipient] fails with "Missing required fields" and the world is
    exactly as before: no repository was called, so no recipient row and no
    sequence-step row was written. *)
Theorem add_recipient_missing_fields
    (self : UIDatabase.t) (recipient_data : gmap string string) (w : W) :
  absent_or_empty (recipient_data !! "first_name")
  \/ absent_or_empty (recipient_data !! "company")
  \/ absent_or_empty (recipient_data !! "email") ->
  UIDatabase.add_recipient self recipient_data w
  = (Returns (false, "Missing required fields"), w).
Proof.
  intros Hmissing. unfold UIDatabase.add_recipient, try_except, all. simpl.
  assert (Hall : truthy_get (recipient_data !! "first_name")
                 && (truthy_get (recipient_data !! "company")
                     && (truthy_get (recipient_data !! "email") && true)) = false).
  { destruct Hmissing as [H|[H|H]]; apply absent_or_empty_falsy in H; rewrite H;
      rewrite ?andb_false_r; reflexivity. }
  unfold id. rewrite Hall. reflexivity.
Qed.

Lemma now_returns (w : W) : now w = (Returns (datetime_now w).1, (datetime_now w).2).
Proof. unfold now. destruct (datetime_now w); reflexivity. Qed.

(** The facade's operations return on every behaviour of the store. *)
Lemma add_recipient_returns (self : UIDatabase.t) recipient_data (w : W) :
  exists ok message w',
    UIDatabase.add_recipient self recipient_data w = (Returns (ok, message), w').
Proof.
  assert (Hrun : exists a w',
             UIDatabase.add_recipient self recipient_data w = (Returns a, w')).
  { apply try_except_returns. intros e w'. eexists _, _. reflexivity. }
  destruct Hrun as ([ok message] & w' & Hrun). eauto.
Qed.

Lemma get_dashboard_metrics_returns (self : UIDatabase.t) (w : W) :
  exists metrics w', UIDatabase.get_dashboard_metrics self w = (Returns metrics, w').
Proof.
  apply try_except_returns. intros e w'.
  unfold bind. rewrite now_returns. eexists _, _. reflexivity.
Qed.

Lemma get_recipients_with_status_returns (self : UIDatabase.t) (w : W) :
  exists recipients w',
    UIDatabase.get_recipients_with_status self w = (Returns recipients, w').
Proof.
  apply try_except_returns. intros e w'. eexists _, _. reflexivity.
Qed.

(** C10. A read that fails below the facade gives the defaults: when
    [execute_query] raises, or the database manager is not there at all,
    [get_dashboard_metrics] returns counts of zero with [scheduler_running]
    false, and [get_recipients_with_status] returns the empty list.  The
    two tables with no rows in them give the same values, so the result
    does not tell a failed read from an empty database. *)
Theorem reads_default_on_failure (self : UIDatabase.t) (w : W) :
  (forall db e w1,
      UIDatabase.db_manager self = Some db ->
      execute_query db DashboardCountsQuery w = (Raises e, w1) ->
      UIDatabase.get_dashboard_metrics self w
      = (Returns (DashboardMetrics.Build (VInt 0) (VInt 0) (VInt 0) (VInt 0) false
                    (datetime_now w1).1), (datetime_now w1).2))
  /\ (forall db e w1,
        UIDatabase.db_manager self = Some db ->
        execute_query db RecipientsWithStatusQuery w = (Raises e, w1) ->
        UIDatabase.get_recipients_with_status self w = (Returns [], w1))
  /\ (UIDatabase.db_manager self = None ->
        UIDatabase.get_dashboard_metrics self w
        = (Returns (DashboardMetrics.Build (VInt 0) (VInt 0) (VInt 0) (VInt 0) false
                      (datetime_now w).1), (datetime_now w).2)
        /\ UIDatabase.get_recipients_with_status self w = (Returns [], w))
  /\ (forall valid clock_at,
        Tables.get_dashboard_metrics valid clock_at Tables.empty
        = (Returns (DashboardMetrics.Build (VInt 0) (VInt 0) (VInt 0) (VInt 0) false
                      (clock_at 0%nat)), Tables.World [] [] 1)
        /\ Tables.get_recipients_with_status valid clock_at Tables.empty
           = (Returns [], Tables.empty)).
Proof.
  split; [|split; [|split]].
  - intros db e w1 Hdb Hq.
    unfold UIDatabase.get_dashboard_metrics, try_except, bind. rewrite Hdb. simpl.
    rewrite Hq, now_returns. reflexivity.
  - intros db e w1 Hdb Hq.
    unfold UIDatabase.get_recipients_with_status, try_except, bind. rewrite Hdb. simpl.
    rewrite Hq. reflexivity.
  - intros Hdb. split.
    + unfold UIDatabase.get_dashboard_metrics, try_except, bind. rewrite Hdb. simpl.
      rewrite now_returns. reflexivity.
    + unfold UIDatabase.get_recipients_with_status, try_except, bind. rewrite Hdb.
      reflexivity.
  - intros valid clock_at. split; reflexivity.
Qed.

End Facade.

(** A database that cannot be opened, and a facade that was never
    initialised, both read as an empty database. *)
Lemma reads_default_on_failure_witness :
  (UIDatabase.get_dashboard_metrics (S := Offline.store) Offline.connected tt
   = (Returns (DashboardMetrics.Build (VInt 0) (VInt 0) (VInt 0) (VInt 0) false 0), tt)
   /\ UIDatabase.get_recipients_with_status (S := Offline.store) Offline.connected tt
      = (Returns [], tt))
  /\ (UIDatabase.get_dashboard_metrics (S := Tables.store Tables.form_valid (fun _ => 0))
        (UIDatabase.Build None None None) Tables.empty
      = (Returns (DashboardMetrics.Build (VInt 0) (VInt 0) (VInt 0) (VInt 0) false 0),
         Tables.World [] [] 1)
      /\ UIDatabase.get_recipients_with_status
           (S := Tables.store Tables.form_valid (fun _ => 0))
           (UIDatabase.Build None None None) Tables.empty
         = (Returns [], Tables.empty)).
Proof.
  split; [split|].
  - apply (proj1 (reads_default_on_failure (S := Offline.store) Offline.connected tt)
             tt (Exception "unable to open database file") tt eq_refl eq_refl).
  - apply (proj1 (proj2 (reads_default_on_failure (S := Offline.store) Offline.connected tt))
             tt (Exception "unable to open database file") tt eq_refl eq_refl).
  - apply (reads_default_on_failure (S := Tables.store Tables.form_valid (fun _ => 0))
             (UIDatabase.Build None None None) Tables.empty).
    reflexivity.
Defined.

Lemma add_recipient_missing_fields_witness :
  Tables.add_recipient Tables.form_valid (fun _ => 0) no_first_name Tables.empty
  = (Returns (false, "Missing required fields"), Tables.empty).
Proof.
  apply (add_recipient_missing_fields (S := Tables.store Tables.form_valid (fun _ => 0))).
  left. right. reflexivity.
Defined.

(** ** The facade over the two tables *)

Section OverTables.
Import Tables.
Variable valid : Recipient.t -> bool.
Variable clock_at : nat -> Z.
Let tables : Store world := store valid clock_at.
#[local] Existing Instance tables.

(** The loop [for step in [1, 2, 3]], when none of its inserts raises. *)
Lemma sequence_loop_returns (self : UIDatabase.t (S := store valid clock_at))
    (rid : Z) (w w' : world) :
  UIDatabase.sequence_repo self = Some tt ->
  for_each [1; 2; 3] (fun step =>
      bind now (fun t0 =>
      bind (attr (UIDatabase.sequence_repo self) "create") (fun seqs =>
      sequence_create seqs (EmailSequence.new rid step t0)))) w
  = (Returns tt, w') ->
  w' = World (recipients w) (email_sequence w ++ new_steps clock_at rid (clock_reads w))
         (3 + clock_reads w).
Proof.
  intros Hrepo Hrun. rewrite Hrepo in Hrun.
  unfold for_each, bind, ret, attr, now in Hrun. simpl in Hrun.
  unfold insert_sequence in Hrun. simpl in Hrun.
  repeat (case_match; simplify_eq/=).
  unfold new_steps, EmailSequence.new. rewrite <- !app_assoc. reflexivity.
Qed.

Local Opaque for_each.

(** What a successful [add_recipient] has done to the tables. *)
Lemma add_recipient_success (recipient_data : gmap string string)
    (w w' : world) (message : string) :
  Tables.add_recipient valid clock_at recipient_data w = (Returns (true, message), w') ->
  exists fn co em,
    recipient_data !! "first_name" = Some fn
    /\ recipient_data !! "company" = Some co
    /\ recipient_data !! "email" = Some em
    /\ email_taken em w = false
    /\ email_taken (lower (strip em)) w = false
    /\ valid (submitted fn co em recipient_data) = true
    /\ message = "Successfully added " +:+ lower (strip em)
    /\ w' = World (recipients w ++ [Row (next_id w) (submitted fn co em recipient_data)])
              (email_sequence w ++ new_steps clock_at (next_id w) (clock_reads w))
              (3 + clock_reads w).
Proof.
  intros Hrun.
  unfold Tables.add_recipient, UIDatabase.add_recipient, try_except in Hrun.
  destruct (negb _) eqn:Hfields in Hrun; [discriminate|].
  apply negb_false_iff in Hfields. unfold all in Hfields; simpl in Hfields.
  unfold id in Hfields.
  apply andb_true_iff in Hfields as [Hfn Hfields].
  apply andb_true_iff in Hfields as [Hco Hfields].
  apply andb_true_iff in Hfields as [Hem _].
  destruct (recipient_data !! "first_name") as [fn|] eqn:Efn; [|discriminate].
  destruct (recipient_data !! "company") as [co|] eqn:Eco; [|discriminate].
  destruct (recipient_data !! "email") as [em|] eqn:Eem; [|discriminate].
  exists fn, co, em.
  unfold bind at 1 2 3, attr, ret, UIDatabase.subscript in Hrun.
  simpl in Hrun. rewrite ?Eem in Hrun. simpl in Hrun.
  unfold select_by_email in Hrun.
  destruct (List.find _ (recipients w)) as [found|] eqn:Hfind; simpl in Hrun.
  { unfold bind, ret in Hrun. rewrite ?Eem in Hrun. discriminate. }
  assert (Hfree : email_taken em w = false).
  { unfold email_taken. destruct (existsb _ (recipients w)) eqn:Hex; [|reflexivity].
    apply existsb_exists in Hex as (r & Hin & Hr).
    apply (find_none _ _ Hfind) in Hin. congruence. }
  unfold bind at 1 2 3 4, ret in Hrun. rewrite ?Efn, ?Eco, ?Eem in Hrun. simpl in Hrun.
  fold (submitted fn co em recipient_data) in Hrun.
  destruct (valid (submitted fn co em recipient_data)) eqn:Hvalid;
    simpl in Hrun; [|discriminate].
  unfold bind at 1 2, insert_recipient in Hrun. simpl in Hrun.
  destruct (email_taken (lower (strip em)) w) eqn:Htaken; [discriminate|].
  unfold bind at 1 in Hrun.
  match type of Hrun with
  | context [for_each ?xs ?body ?w0] => destruct (for_each xs body w0) as [[[]|e] w1] eqn:Hloop
  end; [|discriminate].
  pose proof (sequence_loop_returns (connected valid clock_at) _ _ _ eq_refl Hloop)
    as Hsteps.
  simpl in Hsteps. unfold ret in Hrun. simpl in Hrun.
  injection Hrun as <- <-. subst w1.
  repeat split; assumption || reflexivity.
Qed.
Local Transparent for_each.

(** C7. A successful [add_recipient] adds one recipient row and, for that
    recipient's id, exactly three step rows: steps 1, 2 and 3, each with
    the clock reading of its creation as placeholder scheduled time, no
    sent timestamp and no reply.  Nothing else in the tables changes. *)
Theorem add_recipient_creates_three_steps (recipient_data : gmap string string)
    (w w' : world) (message : string) :
  Tables.add_recipient valid clock_at recipient_data w = (Returns (true, message), w') ->
  exists rid r,
    recipients w' = recipients w ++ [Row rid r]
    /\ email_sequence w' =
         email_sequence w ++
         [ EmailSequence.Build rid 1 (clock_at (clock_reads w)) None false;
           EmailSequence.Build rid 2 (clock_at (S (clock_reads w))) None false;
           EmailSequence.Build rid 3 (clock_at (S (S (clock_reads w)))) None false ]
    /\ List.filter (fun es => EmailSequence.recipient_id es =? rid) (email_sequence w') =
         List.filter (fun es => EmailSequence.recipient_id es =? rid) (email_sequence w)
         ++ [ EmailSequence.Build rid 1 (clock_at (clock_reads w)) None false;
              EmailSequence.Build rid 2 (clock_at (S (clock_reads w))) None false;
              EmailSequence.Build rid 3 (clock_at (S (S (clock_reads w)))) None false ].
Proof.
  intros Hrun.
  apply add_recipient_success in Hrun
    as (fn & co & em & _ & _ & _ & _ & _ & _ & _ & ->).
  exists (next_id w), (submitted fn co em recipient_data). simpl.
  repeat split.
  rewrite List.filter_app. simpl. rewrite Z.eqb_refl. reflexivity.
Qed.

(** The duplicate check looks the submitted email up as it was typed. *)
Lemma add_recipient_email_taken (recipient_data : gmap string string) (w : world)
    (em : string) :
  truthy_get (recipient_data !! "first_name") = true ->
  truthy_get (recipient_data !! "company") = true ->
  recipient_data !! "email" = Some em ->
  em <> "" ->
  email_taken em w = true ->
  Tables.add_recipient valid clock_at recipient_data w
  = (Returns (false, "Recipient with email " +:+ em +:+ " already exists"), w).
Proof.
  intros Hfn Hco Hem Hne Htaken.
  unfold Tables.add_recipient, UIDatabase.add_recipient, try_except, all. simpl.
  unfold id. rewrite Hfn, Hco, Hem. simpl.
  replace (negb (String.eqb em "")) with true
    by (symmetry; apply negb_true_iff, String.eqb_neq, Hne).
  simpl. unfold bind, attr, UIDatabase.subscript. simpl. rewrite Hem.
  unfold select_by_email, ret. simpl.
  destruct (List.find (fun r => String.eqb (Recipient.email (row_data r)) em)
              (recipients w)) as [found|] eqn:Hfind; [reflexivity|].
  unfold email_taken in Htaken. apply existsb_exists in Htaken as (r & Hin & Hr).
  apply (find_none _ _ Hfind) in Hin. congruence.
Qed.

(** Submitting again an email in the form it was stored in: the second
    call is refused as a duplicate and writes nothing. *)
Lemma add_recipient_twice_normalised (first_data second_data : gmap string string)
    (w w1 : world) (message em : string) :
  Tables.add_recipient valid clock_at first_data w = (Returns (true, message), w1) ->
  first_data !! "email" = Some em ->
  lower (strip em) <> "" ->
  truthy_get (second_data !! "first_name") = true ->
  truthy_get (second_data !! "company") = true ->
  second_data !! "email" = Some (lower (strip em)) ->
  Tables.add_recipient valid clock_at second_data w1
  = (Returns (false, "Recipient with email " +:+ lower (strip em) +:+ " already exists"),
     w1).
Proof.
  intros Hfirst Hem Hne Hfn Hco Hem2.
  apply add_recipient_success in Hfirst
    as (fn & co & em' & _ & _ & Hem' & _ & _ & Hvalid & _ & ->).
  rewrite Hem in Hem'. injection Hem' as <-.
  apply add_recipient_email_taken; try assumption.
  unfold email_taken. simpl. rewrite existsb_app. simpl.
  rewrite String.eqb_refl. apply orb_true_r.
Qed.

(** C2. Two submissions of the same email, typed with capitals: the first
    succeeds and stores it lower-cased; the second looks up the email as
    typed, finds nothing, and is stopped only by the uniqueness constraint
    of the table, so it fails with the generic "Database error: ..."
    message and not with "already exists".  No second triple of steps is
    written. *)
Theorem add_recipient_duplicate_as_typed :
  valid (Recipient.Build "John" "Acme Corp" "CEO" "john@acme.com" "pending") = true ->
  let twice : gmap string string :=
    <["first_name" := "John"]> (<["company" := "Acme Corp"]> (<["role" := "CEO"]>
      (<["email" := "John@Acme.com"]> ∅))) in
  let w1 :=
    World [Row 1 (Recipient.Build "John" "Acme Corp" "CEO" "john@acme.com" "pending")]
      (new_steps clock_at 1 0) 3 in
  Tables.add_recipient valid clock_at twice Tables.empty
  = (Returns (true, "Successfully added john@acme.com"), w1)
  /\ Tables.add_recipient valid clock_at twice w1
     = (Returns (false, "Database error: UNIQUE constraint failed: recipients.email"), w1)
  /\ (forall w2, Tables.add_recipient valid clock_at twice w1
                   <> (Returns (false, "Recipient with email John@Acme.com already exists"),
                       w2)).
Proof.
  intros Hvalid twice w1. subst w1.
  assert (Hfirst : Tables.add_recipient valid clock_at twice Tables.empty
            = (Returns (true, "Successfully added john@acme.com"),
               World [Row 1 (Recipient.Build "John" "Acme Corp" "CEO" "john@acme.com" "pending")]
                 (new_steps clock_at 1 0) 3)).
  { vm_compute. vm_compute in Hvalid. rewrite Hvalid. reflexivity. }
  assert (Hsecond : Tables.add_recipient valid clock_at twice
            (World [Row 1 (Recipient.Build "John" "Acme Corp" "CEO" "john@acme.com" "pending")]
               (new_steps clock_at 1 0) 3)
            = (Returns (false, "Database error: UNIQUE constraint failed: recipients.email"),
               World [Row 1 (Recipient.Build "John" "Acme Corp" "CEO" "john@acme.com" "pending")]
                 (new_steps clock_at 1 0) 3)).
  { vm_compute. vm_compute in Hvalid. rewrite Hvalid. reflexivity. }
  split; [exact Hfirst|]. split; [exact Hsecond|].
  intros w2. rewrite Hsecond. discriminate.
Qed.

End OverTables.

(** The form's own rule accepts John, so the example runs as stated. *)
Lemma add_recipient_duplicate_as_typed_witness :
  Tables.add_recipient Tables.form_valid (fun n => Z.of_nat n)
    (<["first_name" := "John"]> (<["company" := "Acme Corp"]> (<["role" := "CEO"]>
       (<["email" := "John@Acme.com"]> ∅))))
    (Tables.World
       [Tables.Row 1 (Recipient.Build "John" "Acme Corp" "CEO" "john@acme.com" "pending")]
       (Tables.new_steps (fun n => Z.of_nat n) 1 0) 3)
  = (Returns (false, "Database error: UNIQUE constraint failed: recipients.email"),
     Tables.World
       [Tables.Row 1 (Recipient.Build "John" "Acme Corp" "CEO" "john@acme.com" "pending")]
       (Tables.new_steps (fun n => Z.of_nat n) 1 0) 3).
Proof.
  apply (add_recipient_duplicate_as_typed Tables.form_valid (fun n => Z.of_nat n)).
  reflexivity.
Defined.

Lemma add_recipient_creates_three_steps_witness :
  exists rid r,
    [Tables.Row 1 (Recipient.Build "John" "Acme Corp" "CEO" "john@acme.com" "pending")]
    = [] ++ [Tables.Row rid r]
    /\ [ EmailSequence.Build 1 1 100 None false; EmailSequence.Build 1 2 101 None false;
         EmailSequence.Build 1 3 102 None false ]
       = [] ++ [ EmailSequence.Build rid 1 100 None false;
                 EmailSequence.Build rid 2 101 None false;
                 EmailSequence.Build rid 3 102 None false ]
    /\ List.filter (fun es => EmailSequence.recipient_id es =? rid)
         [ EmailSequence.Build 1 1 100 None false; EmailSequence.Build 1 2 101 None false;
           EmailSequence.Build 1 3 102 None false ]
       = List.filter (fun es => EmailSequence.recipient_id es =? rid) []
         ++ [ EmailSequence.Build rid 1 100 None false;
              EmailSequence.Build rid 2 101 None false;
              EmailSequence.Build rid 3 102 None false ].
Proof.
  apply (add_recipient_creates_three_steps Tables.form_valid (fun n => 100 + Z.of_nat n)
           john Tables.empty
           (Tables.World
              [Tables.Row 1 (Recipient.Build "John" "Acme Corp" "CEO" "john@acme.com" "pending")]
              [ EmailSequence.Build 1 1 100 None false; EmailSequence.Build 1 2 101 None false;
                EmailSequence.Build 1 3 102 None false ] 3)
           "Successfully added john@acme.com").
  vm_compute. reflexivity.
Defined.

(** ** Backend Bridge *)

Section BridgeFacts.
Import BackendIntegration.
Context {W : Type} `{B : Backend W}.

(** The four methods share one shape. *)
Lemma call_shape (op : operation) :
  call op = try_except (bind ensure_app (fun _ => use op)) (handler op).
Proof. destruct op; reflexivity. Qed.

Lemma call_returns (op : operation) (self : t) (w : W) :
  exists ok message self' w',
    call op (self, w) = (Returns (ok, message), (self', w')).
Proof.
  rewrite call_shape.
  destruct (try_except_returns (bind ensure_app (fun _ => use op)) (handler op) (self, w))
    as ([ok message] & [self' w'] & Hrun).
  - intros e sh. eexists _, _. reflexivity.
  - eauto.
Qed.

(** With an app instance in place no call initialises. *)
Lemma ensure_app_present (self : t) (w : W) (app : EmailAutomationApp) :
  _app_instance self = Some app ->
  ensure_app (self, w) = (Returns tt, (self, w)).
Proof. intros Happ. unfold ensure_app, bind, get. rewrite Happ. reflexivity. Qed.

Lemma call_present (op : operation) (self : t) (w : W) (app : EmailAutomationApp) :
  _app_instance self = Some app ->
  call op (self, w) = try_except (use op) (handler op) (self, w).
Proof.
  intros Happ. rewrite call_shape. unfold try_except, bind.
  rewrite (ensure_app_present self w app Happ). reflexivity.
Qed.

(** The part after the initialisation never touches the attributes. *)
Lemma use_keeps_attributes (op : operation) (self self' : t) (w w' : W) r :
  use op (self, w) = (r, (self', w')) -> self' = self.
Proof.
  destruct op; unfold use, bind, get, lift, ret; simpl;
    repeat (case_match; simplify_eq/=); congruence.
Qed.

(** An app instance without scheduler and reply tracker: every call
    answers "not available" and leaves the bridge and the backend alone. *)
Lemma call_half_initialised (op : operation) (self : t) (w : W) (app : EmailAutomationApp) :
  _app_instance self = Some app ->
  _scheduler self = None ->
  _reply_tracker self = None ->
  call op (self, w) = (Returns (false, not_available op), (self, w)).
Proof.
  intros Happ Hsched Htracker. rewrite (call_present op self w app Happ).
  destruct op; unfold try_except, use, bind, get; simpl;
    rewrite ?Hsched, ?Htracker; reflexivity.
Qed.

(** C5. When [initialize] raises during the first call, the call reports
    the error, but the bridge is not back in its initial state: the app
    instance stays in place with no scheduler and no reply tracker beside
    it.  From then on every call answers "not available" without touching
    the backend: the initialisation is never attempted again. *)
Theorem failed_initialisation_is_kept
    (op : operation) (w w0 w1 : W) (app : EmailAutomationApp) (e : exn) :
  new_app w = (Returns app, w0) ->
  app_initialize app w0 = (Raises e, w1) ->
  let stuck := Build None None None None (Some app) in
  call op (init, w) = (Returns (false, error_prefix op +:+ str_of_exn e), (stuck, w1))
  /\ stuck <> init
  /\ (forall later w', call later (stuck, w')
                       = (Returns (false, not_available later), (stuck, w'))).
Proof.
  intros Hnew Hinit stuck. split; [|split].
  - rewrite call_shape.
    unfold try_except, bind, ensure_app, _initialize_app, try_except, bind, get,
      construct_app, initialize_app, bind,
      lift, set_app_instance, app_instance_attr, attr, bind, get, raise, handler, ret.
    simpl. rewrite Hnew. simpl. rewrite Hinit. reflexivity.
  - discriminate.
  - intros later w'. apply (call_half_initialised later stuck w' app); reflexivity.
Qed.

End BridgeFacts.

(** An [initialize] that fails once and would succeed at the next attempt:
    the next attempt never comes. *)
Lemma failed_initialisation_is_kept_witness :
  BackendIntegration.call (B := Scripted.backend) BackendIntegration.StartScheduler
    (BackendIntegration.init (B := Scripted.backend), [Some "connection refused"; None])
  = (Returns (false, "Error starting scheduler: connection refused"),
     (BackendIntegration.Build (B := Scripted.backend) None None None None (Some tt), [None]))
  /\ BackendIntegration.call (B := Scripted.backend) BackendIntegration.StartScheduler
       (BackendIntegration.Build (B := Scripted.backend) None None None None (Some tt), [None])
     = (Returns (false, "Scheduler not available"),
        (BackendIntegration.Build (B := Scripted.backend) None None None None (Some tt), [None])).
Proof.
  destruct (failed_initialisation_is_kept (B := Scripted.backend)
              BackendIntegration.StartScheduler
              [Some "connection refused"; None] [Some "connection refused"; None] [None]
              tt (Exception "connection refused") eq_refl eq_refl)
    as (Hfirst & _ & Hlater).
  split; [exact Hfirst | exact (Hlater BackendIntegration.StartScheduler [None])].
Defined.

(** C6. The four control operations of the bridge and the facade's
    [add_recipient] return a success flag and a message on every behaviour
    of the layer below, a raised exception included: none of them raises. *)
Theorem operations_return_flag_and_message
    {W1 : Type} `{B : Backend W1} {W2 : Type} `{S : Store W2} :
  (forall (op : BackendIntegration.operation) (self : BackendIntegration.t) (w : W1),
      exists ok message self' w',
        BackendIntegration.call op (self, w) = (Returns (ok, message), (self', w')))
  /\ BackendIntegration.call BackendIntegration.StartScheduler
       = BackendIntegration.start_scheduler
  /\ BackendIntegration.call BackendIntegration.StopScheduler
       = BackendIntegration.stop_scheduler
  /\ BackendIntegration.call BackendIntegration.ProcessDueEmails
       = BackendIntegration.process_due_emails
  /\ BackendIntegration.call BackendIntegration.ScanForReplies
       = BackendIntegration.scan_for_replies
  /\ (forall (self : UIDatabase.t) (recipient_data : gmap string string) (w : W2),
        exists ok message w',
          UIDatabase.add_recipient self recipient_data w = (Returns (ok, message), w')).
Proof.
  split; [apply call_returns|].
  repeat (split; [reflexivity|]).
  apply add_recipient_returns.
Qed.

(** ** Two requests on one bridge *)

Section Interleaving.
Import BackendIntegration.
Context {W : Type} `{B : Backend W}.

Lemma run_alone_done (op : operation) (k : nat) r (sh : t * W) :
  run_alone op k (Done r) sh = (Done r, sh).
Proof. induction k as [|k IH]; [reflexivity|]. simpl. exact IH. Qed.

(** One statement of a request on its own, by the outcome of its method. *)
Lemma run_alone_advance {A : Type} (op : operation) (k : nat) (at_ : pc)
    (m : method A) (next : A -> pc) (sh : t * W) :
  step op at_ sh = advance op m next sh ->
  run_alone op (S k) at_ sh =
    match m sh with
    | (Returns a, sh') => run_alone op k (next a) sh'
    | (Raises e, sh') => (Done (false, error_prefix op +:+ str_of_exn e), sh')
    end.
Proof.
  intros Hstep. simpl. rewrite Hstep. unfold advance.
  destruct (m sh) as [[a|e] sh']; [reflexivity | apply run_alone_done].
Qed.

(** The threads of a schedule that names one thread only. *)
Lemma interleave_first_alone (op1 op2 : operation) (k : nat) (sh : t * W) (p1 p2 : pc) :
  interleave op1 op2 (replicate k First) (Requests sh p1 p2)
  = Requests (run_alone op1 k p1 sh).2 (run_alone op1 k p1 sh).1 p2.
Proof.
  revert sh p1. induction k as [|k IH]; intros sh p1; [reflexivity|].
  simpl. unfold interleave in IH. simpl.
  destruct (step op1 p1 sh) as [next sh'] eqn:Hstep. simpl. apply IH.
Qed.

Lemma interleave_second_alone (op1 op2 : operation) (k : nat) (sh : t * W) (p1 p2 : pc) :
  interleave op1 op2 (replicate k Second) (Requests sh p1 p2)
  = Requests (run_alone op2 k p2 sh).2 p1 (run_alone op2 k p2 sh).1.
Proof.
  revert sh p2. induction k as [|k IH]; intros sh p2; [reflexivity|].
  simpl. unfold interleave in IH. simpl.
  destruct (step op2 p2 sh) as [next sh'] eqn:Hstep. simpl. apply IH.
Qed.

(** With no app instance, [ensure_app] is the four statements in a row:
    the inner handler only re-raises. *)
Lemma ensure_app_absent (self : t) (w : W) :
  _app_instance self = None ->
  ensure_app (self, w)
  = bind construct_app (fun _ => bind initialize_app (fun _ =>
      bind publish_scheduler (fun _ => publish_reply_tracker))) (self, w).
Proof.
  intros Happ. unfold ensure_app, bind at 1, get. rewrite Happ.
  unfold _initialize_app, try_except.
  match goal with |- (let (_, _) := ?body in _) = _ => destruct body as [[[]|e] sh] end;
    reflexivity.
Qed.

(** The end of a call, as a method and as the last statement. *)
Lemma use_alone (op : operation) (k : nat) (sh : t * W) :
  exists r sh',
    try_except (use op) (handler op) sh = (Returns r, sh')
    /\ run_alone op (S k) AtUse sh = (Done r, sh').
Proof.
  rewrite (run_alone_advance op k AtUse (use op) Done sh eq_refl).
  unfold try_except, handler, ret.
  destruct (use op sh) as [[r|e] sh']; eexists _, _; split;
    reflexivity || apply run_alone_done.
Qed.

(** Run alone, the statements of a call are the call. *)
Lemma steps_refine_call (op : operation) (sh : t * W) :
  exists r sh',
    call op sh = (Returns r, sh')
    /\ run_alone op 6 AtCheck sh = (Done r, sh').
Proof.
  destruct sh as [self w].
  rewrite (run_alone_advance op 5 AtCheck (get _app_instance)
             (fun inst => match inst with None => AtConstruct | Some _ => AtUse end)
             (self, w) eq_refl).
  unfold get at 1.
  destruct (_app_instance self) as [app|] eqn:Happ.
  - rewrite (call_present op self w app Happ). apply use_alone.
  - rewrite call_shape. unfold try_except at 1, bind at 1.
    rewrite (ensure_app_absent self w Happ).
    rewrite (run_alone_advance op 4 AtConstruct construct_app
               (fun _ => AtInitialize) (self, w) eq_refl).
    unfold bind at 1.
    destruct (construct_app (self, w)) as [[[]|e] sh1];
      [|eexists _, _; split; reflexivity].
    rewrite (run_alone_advance op 3 AtInitialize initialize_app
               (fun _ => AtPublishScheduler) sh1 eq_refl).
    unfold bind at 1.
    destruct (initialize_app sh1) as [[[]|e] sh2];
      [|eexists _, _; split; reflexivity].
    rewrite (run_alone_advance op 2 AtPublishScheduler publish_scheduler
               (fun _ => AtPublishTracker) sh2 eq_refl).
    unfold bind at 1.
    destruct (publish_scheduler sh2) as [[[]|e] sh3];
      [|eexists _, _; split; reflexivity].
    rewrite (run_alone_advance op 1 AtPublishTracker publish_reply_tracker
               (fun _ => AtUse) sh3 eq_refl).
    destruct (publish_reply_tracker sh3) as [[[]|e] sh4];
      [|eexists _, _; split; reflexivity].
    apply (use_alone op 0 sh4).
Qed.

(** A lazy initialisation that returns is the first five steps. *)
Lemma ensure_app_alone (op : operation) (self : t) (w : W) (sh' : t * W) :
  _app_instance self = None ->
  ensure_app (self, w) = (Returns tt, sh') ->
  run_alone op 5 AtCheck (self, w) = (AtUse, sh').
Proof.
  intros Happ. rewrite (ensure_app_absent self w Happ).
  rewrite (run_alone_advance op 4 AtCheck (get _app_instance)
             (fun inst => match inst with None => AtConstruct | Some _ => AtUse end)
             (self, w) eq_refl).
  unfold get at 1. rewrite Happ.
  rewrite (run_alone_advance op 3 AtConstruct construct_app
             (fun _ => AtInitialize) (self, w) eq_refl).
  unfold bind at 1.
  destruct (construct_app (self, w)) as [[[]|e] sh1]; [|discriminate].
  rewrite (run_alone_advance op 2 AtInitialize initialize_app
             (fun _ => AtPublishScheduler) sh1 eq_refl).
  unfold bind at 1.
  destruct (initialize_app sh1) as [[[]|e] sh2]; [|discriminate].
  rewrite (run_alone_advance op 1 AtPublishScheduler publish_scheduler
             (fun _ => AtPublishTracker) sh2 eq_refl).
  unfold bind at 1.
  destruct (publish_scheduler sh2) as [[[]|e] sh3]; [|discriminate].
  rewrite (run_alone_advance op 0 AtPublishTracker publish_reply_tracker
             (fun _ => AtUse) sh3 eq_refl).
  destruct (publish_reply_tracker sh3) as [[[]|e] sh4]; [|discriminate].
  intros [= <-]. reflexivity.
Qed.

(** What the statements do to the app instance. *)
Lemma construct_app_instance (self self' : t) (w w' : W) :
  construct_app (self, w) = (Returns tt, (self', w')) -> is_Some (_app_instance self').
Proof.
  unfold construct_app, bind, lift, set_app_instance. intros Hrun.
  repeat (case_match; simplify_eq/=). eauto.
Qed.

Lemma statements_keep_instance (self self' : t) (w w' : W) r :
  initialize_app (self, w) = (r, (self', w'))
  \/ publish_scheduler (self, w) = (r, (self', w'))
  \/ publish_reply_tracker (self, w) = (r, (self', w')) ->
  _app_instance self' = _app_instance self.
Proof.
  unfold initialize_app, publish_scheduler, publish_reply_tracker, app_instance_attr,
    bind, get, attr, lift, ret, raise, set_scheduler, set_reply_tracker.
  intros [Hrun|[Hrun|Hrun]]; repeat (case_match; simplify_eq/=); congruence.
Qed.

End Interleaving.

(** ** Counting the initialisations of two requests *)

Section CountedRequests.
Import BackendIntegration.
Context {W : Type} (B : Backend W).

Let CB : Backend (W * nat) := Counting.backend B.
#[local] Existing Instance CB.

(** On the counting backend only [initialize] moves the counter. *)
Lemma use_keeps_count (op : operation) (self self' : t (B := CB))
    (w w' : W) (n n' : nat) r :
  use op (self, (w, n)) = (r, (self', (w', n'))) -> n' = n.
Proof.
  destruct op; unfold use, bind, get, lift, ret; simpl;
    unfold Counting.beside;
    repeat (case_match; simplify_eq/=); congruence.
Qed.

Lemma statements_keep_count (self self' : t (B := CB)) (w w' : W) (n n' : nat) r :
  construct_app (self, (w, n)) = (r, (self', (w', n')))
  \/ publish_scheduler (self, (w, n)) = (r, (self', (w', n')))
  \/ publish_reply_tracker (self, (w, n)) = (r, (self', (w', n'))) ->
  n' = n.
Proof.
  unfold construct_app, publish_scheduler, publish_reply_tracker, app_instance_attr,
    bind, get, attr, lift, ret, raise, set_app_instance, set_scheduler, set_reply_tracker.
  simpl. unfold Counting.beside.
  intros [Hrun|[Hrun|Hrun]]; repeat (case_match; simplify_eq/=); reflexivity.
Qed.

Lemma initialize_app_counts (self self' : t (B := CB)) (w w' : W) (n n' : nat) :
  initialize_app (self, (w, n)) = (Returns tt, (self', (w', n'))) -> n' = S n.
Proof.
  unfold initialize_app, app_instance_attr, bind, get, attr, lift, ret, raise.
  simpl. unfold Counting.counted.
  intros Hrun; repeat (case_match; simplify_eq/=); reflexivity.
Qed.

(** A lazy initialisation that returns leaves an app instance in place and
    has entered [initialize] once. *)
Lemma ensure_app_counts (w : W) (n : nat) (self1 : t (B := CB)) (w1 : W * nat) :
  ensure_app (init, (w, n)) = (Returns tt, (self1, w1)) ->
  is_Some (_app_instance self1) /\ snd w1 = S n.
Proof.
  rewrite (ensure_app_absent (B := CB) init (w, n) eq_refl).
  unfold bind at 1.
  destruct (construct_app (init, (w, n))) as [[[]|e] [s1 [x1 n1]]] eqn:H1; [|discriminate].
  unfold bind at 1.
  destruct (initialize_app (s1, (x1, n1))) as [[[]|e] [s2 [x2 n2]]] eqn:H2; [|discriminate].
  unfold bind at 1.
  destruct (publish_scheduler (s2, (x2, n2))) as [[[]|e] [s3 [x3 n3]]] eqn:H3; [|discriminate].
  intros H4. destruct w1 as [x4 n4].
  pose proof (construct_app_instance _ _ _ _ H1) as Happ.
  rewrite <- (statements_keep_instance _ _ _ _ _ (or_introl H2)) in Happ.
  rewrite <- (statements_keep_instance _ _ _ _ _ (or_intror (or_introl H3))) in Happ.
  rewrite <- (statements_keep_instance _ _ _ _ _ (or_intror (or_intror H4))) in Happ.
  pose proof (statements_keep_count _ _ _ _ _ _ _ (or_introl H1)) as ->.
  pose proof (initialize_app_counts _ _ _ _ _ _ H2) as ->.
  pose proof (statements_keep_count _ _ _ _ _ _ _ (or_intror (or_introl H3))) as ->.
  pose proof (statements_keep_count _ _ _ _ _ _ _ (or_intror (or_intror H4))) as ->.
  split; [exact Happ | reflexivity].
Qed.

(** Any step of either thread keeps the session and the counter, and
    brings the stepping thread one statement closer to its result. *)
Lemma step_thread_in_place (op1 op2 : operation) (self1 : t (B := CB)) (n : nat)
    (who : thread) (c : requests) :
  is_Some (_app_instance self1) ->
  Counting.in_place B self1 n c ->
  let c' := step_thread op1 op2 who c in
  Counting.in_place B self1 n c'
  /\ remaining (first c') = (remaining (first c) - if who is First then 1 else 0)%nat
  /\ remaining (second c') = (remaining (second c) - if who is Second then 1 else 0)%nat.
Proof.
  intros [app Happ] (Hself & Hcount & Hfirst & Hsecond).
  destruct c as [[self [w k]] p1 p2]. simpl in *. subst self.
  unfold Counting.initialisations in Hcount. simpl in Hcount. subst k.
  unfold Counting.in_place.
  destruct who; simpl.
  - destruct p1 as [| | | | | |r1]; try discriminate; simpl.
    + unfold advance, get. rewrite Happ. simpl.
      repeat split; first [assumption | reflexivity | lia].
    + unfold advance.
      destruct (use op1 (self1, (w, n))) as [[r|e] [self2 [w2 n2]]] eqn:Huse;
        pose proof (use_keeps_attributes _ _ _ _ _ _ Huse) as ->;
        pose proof (use_keeps_count _ _ _ _ _ _ _ _ Huse) as ->;
        simpl; repeat split; first [assumption | reflexivity | lia].
    + repeat split; first [assumption | reflexivity | lia].
  - destruct p2 as [| | | | | |r2]; try discriminate; simpl.
    + unfold advance, get. rewrite Happ. simpl.
      repeat split; first [assumption | reflexivity | lia].
    + unfold advance.
      destruct (use op2 (self1, (w, n))) as [[r|e] [self2 [w2 n2]]] eqn:Huse;
        pose proof (use_keeps_attributes _ _ _ _ _ _ Huse) as ->;
        pose proof (use_keeps_count _ _ _ _ _ _ _ _ Huse) as ->;
        simpl; repeat split; first [assumption | reflexivity | lia].
    + repeat split; first [assumption | reflexivity | lia].
Qed.

Lemma interleave_in_place (op1 op2 : operation) (self1 : t (B := CB)) (n : nat)
    (schedule : list thread) (c : requests) :
  is_Some (_app_instance self1) ->
  Counting.in_place B self1 n c ->
  let c' := interleave op1 op2 schedule c in
  Counting.in_place B self1 n c'
  /\ remaining (first c') = (remaining (first c) - count_occ thread_eq_dec schedule First)%nat
  /\ remaining (second c') = (remaining (second c) - count_occ thread_eq_dec schedule Second)%nat.
Proof.
  intros Happ. revert c.
  induction schedule as [|who schedule IH]; intros c Hc; simpl.
  - split; [exact Hc | split; lia].
  - destruct (step_thread_in_place op1 op2 self1 n who c Happ Hc) as (Hc' & Hr1 & Hr2).
    destruct (IH _ Hc') as (Hc'' & Hr1' & Hr2').
    split; [exact Hc''|].
    unfold interleave in *. simpl in *. rewrite Hr1', Hr2', Hr1, Hr2.
    split; destruct who; repeat destruct (thread_eq_dec _ _); try congruence; lia.
Qed.

Lemma settled_finished (c : requests) :
  settled (first c) = true -> settled (second c) = true ->
  remaining (first c) = 0%nat -> remaining (second c) = 0%nat ->
  exists r1 r2, finished c = Some (r1, r2).
Proof.
  unfold finished.
  destruct (first c), (second c); simpl; try discriminate; eauto.
Qed.

(** C4, as the code has it.  No lock guards the lazy initialisation.  When
    the second request takes its first step only after the first request
    has run the five statements of an initialisation that succeeds, then
    however the two requests interleave from there on, [initialize] has
    been entered exactly once, the session stays the one that
    initialisation built, with its app instance in place, and both calls
    come to a result once the first has taken one more step and the second
    two. *)
Theorem non_overlapping_calls_initialise_once
    (op1 op2 : operation) (w : W) (n : nat)
    (self1 : t (B := CB)) (w1 : W * nat) (rest : list thread) :
  ensure_app (init, (w, n)) = (Returns tt, (self1, w1)) ->
  let c := interleave op1 op2 (replicate 5 First ++ rest)
             (Requests (init, (w, n)) AtCheck AtCheck) in
  fst (shared c) = self1
  /\ is_Some (_app_instance self1)
  /\ Counting.initialisations B (shared c) = S n
  /\ ((1 <= count_occ thread_eq_dec rest First)%nat ->
      (2 <= count_occ thread_eq_dec rest Second)%nat ->
      exists r1 r2, finished c = Some (r1, r2)).
Proof.
  intros Hens c.
  destruct (ensure_app_counts _ _ _ _ Hens) as (Happ & Hcount).
  pose proof (ensure_app_alone op1 init (w, n) (self1, w1) eq_refl Hens) as Hfive.
  assert (Hstart : Counting.in_place B self1 (S n) (Requests (self1, w1) AtUse AtCheck)).
  { split; [reflexivity | split; [exact Hcount | split; reflexivity]]. }
  destruct (interleave_in_place op1 op2 self1 (S n) rest _ Happ Hstart)
    as ((Hself & Hn & Hs1 & Hs2) & Hr1 & Hr2).
  assert (Hc : c = interleave op1 op2 rest (Requests (self1, w1) AtUse AtCheck)).
  { subst c. unfold interleave at 1. rewrite fold_left_app.
    fold (interleave op1 op2 (replicate 5 First) (Requests (init, (w, n)) AtCheck AtCheck)).
    rewrite interleave_first_alone, Hfive. reflexivity. }
  rewrite Hc. repeat split; try assumption.
  intros Hfirst Hsecond. apply settled_finished; try assumption.
  - rewrite Hr1. simpl. lia.
  - rewrite Hr2. simpl. lia.
Qed.

End CountedRequests.

(** Two first calls, one after the other, on a backend that initialises. *)
Lemma non_overlapping_calls_initialise_once_witness :
  Counting.initialisations Scripted.backend
    (BackendIntegration.shared
       (BackendIntegration.interleave (B := Counting.backend Scripted.backend)
          BackendIntegration.StartScheduler BackendIntegration.ScanForReplies
          (replicate 5 BackendIntegration.First
             ++ BackendIntegration.First :: replicate 6 BackendIntegration.Second)
          (BackendIntegration.Requests (BackendIntegration.init, ([], 0%nat))
             BackendIntegration.AtCheck BackendIntegration.AtCheck)))
  = 1%nat.
Proof.
  apply (non_overlapping_calls_initialise_once Scripted.backend
           BackendIntegration.StartScheduler BackendIntegration.ScanForReplies [] 0%nat
           (BackendIntegration.Build (B := Counting.backend Scripted.backend)
              None None (Some tt) (Some tt) (Some tt))
           ([], 1%nat)
           (BackendIntegration.First :: replicate 6 BackendIntegration.Second)).
  reflexivity.
Defined.

(** Two first calls that overlap: the second request checks for the app
    instance before the first has stored it, and both initialise. *)
Lemma concurrent_first_calls_initialise_twice :
  ~ (forall (schedule : list BackendIntegration.thread) r1 r2,
       let c := BackendIntegration.interleave (B := Counting.backend Scripted.backend)
                  BackendIntegration.StartScheduler BackendIntegration.StartScheduler schedule
                  (BackendIntegration.Requests (BackendIntegration.init, ([], 0%nat))
                     BackendIntegration.AtCheck BackendIntegration.AtCheck) in
       BackendIntegration.finished c = Some (r1, r2) ->
       Counting.initialisations Scripted.backend (BackendIntegration.shared c) = 1%nat).
Proof.
  intros Hone.
  specialize (Hone
    (BackendIntegration.First :: BackendIntegration.Second
       :: replicate 5 BackendIntegration.First ++ replicate 5 BackendIntegration.Second)
    (true, "Scheduler started successfully"%string)
    (true, "Scheduler started successfully"%string) eq_refl).
  vm_compute in Hone. discriminate.
Qed.

(** A second call that arrives while the first is still inside
    [initialize] finds the app instance already stored, skips the
    initialisation and answers "Scheduler not available": it has seen a
    session that is not READY. *)
Lemma overlapping_call_sees_half_built_session :
  let c := BackendIntegration.interleave (B := Counting.backend Scripted.backend)
             BackendIntegration.StartScheduler BackendIntegration.StartScheduler
             [BackendIntegration.First; BackendIntegration.First;
              BackendIntegration.Second; BackendIntegration.Second]
             (BackendIntegration.Requests (BackendIntegration.init, ([], 0%nat))
                BackendIntegration.AtCheck BackendIntegration.AtCheck) in
  BackendIntegration.first c = BackendIntegration.AtInitialize
  /\ BackendIntegration.second c = BackendIntegration.Done (false, "Scheduler not available")
  /\ BackendIntegration.ready (fst (BackendIntegration.shared c)) = false.
Proof. vm_compute. repeat split. Qed.

(* ================================================================== *)
(** * Part III. Further properties of the code *)
(* ================================================================== *)

(** ** Python's string methods *)

Section Strings.




Lemma lower_app (s1 s2 : string) : lower (s1 +:+ s2) = lower s1 +:+ lower s2.
Proof. induction s1 as [|c s1 IH]; simpl; [reflexivity|]. now rewrite IH. Qed.










Lemma strip_empty_iff_lower (s : string) : lower s = "" <-> s = "".
Proof. destruct s; simpl; split; congruence. Qed.

Lemma string_app_assoc (s1 s2 s3 : string) : s1 +:+ (s2 +:+ s3) = (s1 +:+ s2) +:+ s3.
Proof.
  induction s1 as [|c s1 IH]; [reflexivity|].
  change (String c (s1 +:+ (s2 +:+ s3)) = String c ((s1 +:+ s2) +:+ s3)).
  now rewrite IH.
Qed.

Lemma string_length_app (s1 s2 : string) :
  String.length (s1 +:+ s2) = (String.length s1 + String.length s2)%nat.
Proof. induction s1 as [|c s1 IH]; simpl; [reflexivity|]. now rewrite IH. Qed.

Lemma substring_here (n : string) (post : string) :
  substring 0 (String.length n) (n +:+ post) = n.
Proof.
  induction n as [|c n IH]; simpl.
  - destruct post; reflexivity.
  - now rewrite IH.
Qed.

Lemma substring_skip (pre rest : string) (k : nat) :
  substring (String.length pre) k (pre +:+ rest) = substring 0 k rest.
Proof. induction pre as [|c pre IH]; simpl; [reflexivity | exact IH]. Qed.

(** [needle in pre + needle + post] *)
Lemma contains_middle (needle pre post : string) :
  needle <> "" -> contains needle (pre +:+ needle +:+ post) = true.
Proof.
  intros Hne. unfold contains.
  destruct (index 0 needle (pre +:+ needle +:+ post)) eqn:Hindex; [reflexivity|].
  exfalso.
  apply (index_correct3 0 (String.length pre) needle _ Hindex Hne); [lia|].
  rewrite substring_skip. apply substring_here.
Qed.

End Strings.

(** ** More on the facade over the two tables *)

Section TablesForward.
Import Tables.
Variable valid : Recipient.t -> bool.
Variable clock_at : nat -> Z.
Let tables2 : Store world := store valid clock_at.
#[local] Existing Instance tables2.


Lemma find_none_free (em : string) (w : world) :
  email_taken em w = false ->
  List.find (fun r => String.eqb (Recipient.email (row_data r)) em) (recipients w) = None.
Proof.
  unfold email_taken. intros Hfree.
  destruct (List.find _ (recipients w)) as [r|] eqn:Hfind; [|reflexivity].
  apply find_some in Hfind as [Hin Hr].
  assert (existsb (fun r => String.eqb (Recipient.email (row_data r)) em) (recipients w)
          = true) by (apply existsb_exists; eauto).
  congruence.
Qed.

(** Run [add_recipient] up to the call of [validate], for a submission that
    passes the first check and whose email, as typed, is not stored. *)
Ltac run_to_validate Hfilled Hfree :=
  let Hfn := fresh "Hfn" in let Hfn' := fresh "Hfn'" in
  let Hco := fresh "Hco" in let Hco' := fresh "Hco'" in
  let Hem := fresh "Hem" in let Hem' := fresh "Hem'" in
  destruct Hfilled as (Hfn & Hfn' & Hco & Hco' & Hem & Hem');
  unfold Tables.add_recipient, UIDatabase.add_recipient, try_except, all; simpl;
  unfold id; rewrite Hfn, Hco, Hem; simpl;
  rewrite (proj2 (String.eqb_neq _ "") Hfn'), (proj2 (String.eqb_neq _ "") Hco'),
    (proj2 (String.eqb_neq _ "") Hem'); simpl;
  unfold bind at 1, attr, ret; simpl;
  unfold bind at 1, UIDatabase.subscript; rewrite ?Hem; simpl;
  unfold bind at 1, select_by_email;
  rewrite (find_none_free _ _ Hfree); simpl;
  unfold bind at 1; rewrite ?Hfn; simpl;
  unfold bind at 1; rewrite ?Hco; simpl;
  unfold bind at 1; rewrite ?Hem; simpl;
  unfold bind at 1; simpl.

(** X1. A submission that passes the first check and the duplicate check
    but is refused by the repository's [validate]: the call answers
    "Invalid recipient data" and has written nothing. *)
Theorem add_recipient_invalid (recipient_data : gmap string string) (w : world)
    (fn co em : string) :
  filled recipient_data fn co em ->
  email_taken em w = false ->
  valid (submitted fn co em recipient_data) = false ->
  Tables.add_recipient valid clock_at recipient_data w
  = (Returns (false, "Invalid recipient data"), w).
Proof.
  intros Hfilled Hfree Hvalid.
  run_to_validate Hfilled Hfree. match goal with
  | |- context [valid ?r] => change r with (submitted fn co em recipient_data)
  end; rewrite Hvalid. reflexivity.
Qed.

(** X2. For any tables and any submission: when the email as typed is
    not stored but its trimmed, lower-cased form is, the duplicate check
    finds nothing, the insert is refused by the table, and the call
    answers with the database's error text, having written nothing. *)
Theorem add_recipient_unique_violation (recipient_data : gmap string string) (w : world)
    (fn co em : string) :
  filled recipient_data fn co em ->
  email_taken em w = false ->
  valid (submitted fn co em recipient_data) = true ->
  email_taken (lower (strip em)) w = true ->
  Tables.add_recipient valid clock_at recipient_data w
  = (Returns (false, "Database error: UNIQUE constraint failed: recipients.email"), w).
Proof.
  intros Hfilled Hfree Hvalid Htaken.
  run_to_validate Hfilled Hfree. match goal with
  | |- context [valid ?r] => change r with (submitted fn co em recipient_data)
  end; rewrite Hvalid. simpl.
  unfold bind at 1. simpl. unfold bind at 1, insert_recipient. simpl.
  rewrite Htaken. reflexivity.
Qed.


(** X3. No rollback: when the insert of the second step is refused, the
    recipient row and the first step row stay written, the clock has been
    read twice, and the call reports a database error. *)
Theorem add_recipient_partial_write (recipient_data : gmap string string) (w : world)
    (fn co em : string) :
  filled recipient_data fn co em ->
  email_taken em w = false ->
  valid (submitted fn co em recipient_data) = true ->
  email_taken (lower (strip em)) w = false ->
  slot_taken (next_id w) 1 w = false ->
  slot_taken (next_id w) 2 w = true ->
  Tables.add_recipient valid clock_at recipient_data w
  = (Returns (false, "Database error: UNIQUE constraint failed: "
                       +:+ "email_sequence.recipient_id, email_sequence.step"),
     World (recipients w ++ [Row (next_id w) (submitted fn co em recipient_data)])
       (email_sequence w
          ++ [EmailSequence.Build (next_id w) 1 (clock_at (clock_reads w)) None false])
       (2 + clock_reads w)).
Proof.
  intros Hfilled Hfree Hvalid Htaken H1 H2.
  destruct w as [rs es n]. simpl in *.
  run_to_validate Hfilled Hfree. match goal with
  | |- context [valid ?r] => change r with (submitted fn co em recipient_data)
  end; rewrite Hvalid. simpl.
  unfold bind at 1. simpl. unfold bind at 1, insert_recipient. simpl.
  rewrite Htaken.
  unfold slot_taken in H1, H2. simpl in H1, H2.
  unfold bind, now, insert_sequence, ret, slot_taken. simpl.
  rewrite H1. simpl. rewrite existsb_app, H2. reflexivity.
Qed.

End TablesForward.

(** A first name of blanks only passes the first check and is refused by
    the form's rule. *)
Lemma add_recipient_invalid_witness :
  Tables.add_recipient Tables.form_valid (fun n => 100 + Z.of_nat n)
    (<["first_name" := "  "]> (<["company" := "Acme"]> (<["email" := "a@b.com"]> ∅)))
    Tables.empty
  = (Returns (false, "Invalid recipient data"), Tables.empty).
Proof.
  apply (add_recipient_invalid Tables.form_valid (fun n => 100 + Z.of_nat n)
           (<["first_name" := "  "]> (<["company" := "Acme"]> (<["email" := "a@b.com"]> ∅)))
           Tables.empty "  " "Acme" "a@b.com").
  - repeat split; try reflexivity; discriminate.
  - reflexivity.
  - reflexivity.
Defined.

(** John typed with capitals, on tables that hold him lower-cased. *)
Lemma add_recipient_unique_violation_witness :
  Tables.add_recipient Tables.form_valid (fun n => 100 + Z.of_nat n)
    (<["first_name" := "John"]> (<["company" := "Acme Corp"]>
       (<["email" := "John@Acme.com"]> ∅)))
    (Tables.World
       [Tables.Row 1 (Recipient.Build "John" "Acme Corp" "CEO" "john@acme.com" "pending")]
       [] 0)
  = (Returns (false, "Database error: UNIQUE constraint failed: recipients.email"),
     Tables.World
       [Tables.Row 1 (Recipient.Build "John" "Acme Corp" "CEO" "john@acme.com" "pending")]
       [] 0).
Proof.
  apply (add_recipient_unique_violation Tables.form_valid (fun n => 100 + Z.of_nat n)
           (<["first_name" := "John"]> (<["company" := "Acme Corp"]>
              (<["email" := "John@Acme.com"]> ∅)))
           _ "John" "Acme Corp" "John@Acme.com").
  - repeat split; try reflexivity; discriminate.
  - reflexivity.
  - reflexivity.
  - reflexivity.
Defined.

(** Tables that kept the second step of a recipient whose row is gone:
    John gets the id 1 and his first step, and the call fails. *)
Lemma add_recipient_partial_write_witness :
  Tables.add_recipient Tables.form_valid (fun n => 100 + Z.of_nat n) john
    (Tables.World [] [EmailSequence.Build 1 2 50 None false] 0)
  = (Returns (false, "Database error: UNIQUE constraint failed: "
                       +:+ "email_sequence.recipient_id, email_sequence.step"),
     Tables.World
       [Tables.Row 1 (Recipient.Build "John" "Acme Corp" "CEO" "john@acme.com" "pending")]
       [EmailSequence.Build 1 2 50 None false; EmailSequence.Build 1 1 100 None false] 2).
Proof.
  apply (add_recipient_partial_write Tables.form_valid (fun n => 100 + Z.of_nat n) john
           (Tables.World [] [EmailSequence.Build 1 2 50 None false] 0)
           "John" "Acme Corp" "john@acme.com").
  - repeat split; try reflexivity; discriminate.
  - reflexivity.
  - reflexivity.
  - reflexivity.
  - reflexivity.
  - reflexivity.
Defined.

(** ** The facade's reads, row by row *)

Section Reads.
Context {W : Type} `{S : Store W}.

Lemma row_get_full (row : list value) (i : nat) (w : W) :
  (i < length row)%nat -> row_get row i w = (Returns (nth i row VNone), w).
Proof.
  intros Hi. unfold row_get.
  destruct (nth_error row i) as [v|] eqn:Hnth.
  - now rewrite (nth_error_nth row i VNone Hnth).
  - apply nth_error_None in Hnth. lia.
Qed.

Lemma row_get_short (row : list value) (i : nat) (w : W) :
  (length row <= i)%nat ->
  row_get row i w = (Raises (Exception "tuple index out of range"), w).
Proof.
  intros Hi. unfold row_get. now rewrite (proj2 (nth_error_None row i) Hi).
Qed.

Lemma recipient_status_of_full_row (row : list value) (w : W) :
  (11 <= length row)%nat ->
  UIDatabase.recipient_status_of_row row w = (Returns (entry_of row), w).
Proof.
  intros Hlen. unfold UIDatabase.recipient_status_of_row, bind.
  rewrite !row_get_full by lia. reflexivity.
Qed.

Lemma recipient_status_of_short_row (row : list value) (w : W) :
  (length row < 11)%nat ->
  UIDatabase.recipient_status_of_row row w
  = (Raises (Exception "tuple index out of range"), w).
Proof.
  intros Hlen. unfold UIDatabase.recipient_status_of_row, bind.
  destruct (Nat.le_gt_cases (length row) 0) as [H0|H0];
    [now rewrite (row_get_short row 0) by lia | rewrite (row_get_full row 0) by lia].
  destruct (Nat.le_gt_cases (length row) 1) as [H1|H1];
    [now rewrite (row_get_short row 1) by lia | rewrite (row_get_full row 1) by lia].
  destruct (Nat.le_gt_cases (length row) 2) as [H2|H2];
    [now rewrite (row_get_short row 2) by lia | rewrite (row_get_full row 2) by lia].
  destruct (Nat.le_gt_cases (length row) 3) as [H3|H3];
    [now rewrite (row_get_short row 3) by lia | rewrite (row_get_full row 3) by lia].
  destruct (Nat.le_gt_cases (length row) 4) as [H4|H4];
    [now rewrite (row_get_short row 4) by lia | rewrite (row_get_full row 4) by lia].
  destruct (Nat.le_gt_cases (length row) 6) as [H6|H6];
    [now rewrite (row_get_short row 6) by lia | rewrite (row_get_full row 6) by lia].
  destruct (Nat.le_gt_cases (length row) 7) as [H7|H7];
    [now rewrite (row_get_short row 7) by lia | rewrite (row_get_full row 7) by lia].
  destruct (Nat.le_gt_cases (length row) 8) as [H8|H8];
    [now rewrite (row_get_short row 8) by lia | rewrite (row_get_full row 8) by lia].
  destruct (Nat.le_gt_cases (length row) 9) as [H9|H9];
    [now rewrite (row_get_short row 9) by lia | rewrite (row_get_full row 9) by lia].
  rewrite (row_get_full row 5) by lia. rewrite (row_get_full row 9) by lia.
  now rewrite (row_get_short row 10) by lia.
Qed.

Lemma map_io_full_rows (rows : list (list value)) (w : W) :
  Forall (fun row => (11 <= length row)%nat) rows ->
  map_io UIDatabase.recipient_status_of_row rows w = (Returns (map entry_of rows), w).
Proof.
  induction 1 as [|row rows Hrow _ IH]; simpl; [reflexivity|].
  unfold bind. rewrite (recipient_status_of_full_row row w Hrow), IH. reflexivity.
Qed.

Lemma map_io_short_row (rows : list (list value)) (w : W) :
  Exists (fun row => (length row < 11)%nat) rows ->
  map_io UIDatabase.recipient_status_of_row rows w
  = (Raises (Exception "tuple index out of range"), w).
Proof.
  induction rows as [|row rows IH]; intros Hshort; [inversion Hshort|].
  simpl. unfold bind.
  destruct (Nat.le_gt_cases 11 (length row)) as [Hfull|Hrow].
  - rewrite (recipient_status_of_full_row row w Hfull).
    rewrite IH; [reflexivity|]. inversion Hshort; subst; [lia | assumption].
  - now rewrite (recipient_status_of_short_row row w Hrow).
Qed.

(** The facade's listing once the query has returned its rows. *)
Lemma get_recipients_with_status_after_query
    (self : UIDatabase.t) (db : DatabaseManager) (rows : list (list value)) (w w1 : W) :
  UIDatabase.db_manager self = Some db ->
  execute_query db RecipientsWithStatusQuery w = (Returns rows, w1) ->
  UIDatabase.get_recipients_with_status self w
  = try_except (map_io UIDatabase.recipient_status_of_row rows) (fun _ => ret []) w1.
Proof.
  intros Hdb Hquery.
  unfold UIDatabase.get_recipients_with_status, try_except, bind.
  rewrite Hdb. simpl. rewrite Hquery. reflexivity.
Qed.

Lemma get_recipients_with_status_full_rows
    (self : UIDatabase.t) (db : DatabaseManager) (rows : list (list value)) (w w1 : W) :
  UIDatabase.db_manager self = Some db ->
  execute_query db RecipientsWithStatusQuery w = (Returns rows, w1) ->
  Forall (fun row => (11 <= length row)%nat) rows ->
  UIDatabase.get_recipients_with_status self w = (Returns (map entry_of rows), w1).
Proof.
  intros Hdb Hquery Hfull.
  rewrite (get_recipients_with_status_after_query self db rows w w1 Hdb Hquery).
  unfold try_except. rewrite (map_io_full_rows rows w1 Hfull). reflexivity.
Qed.

(** X4. The listing has one entry per row the query returned, in the same
    order, when every row has its eleven columns; one row that is shorter
    makes the facade give up the whole listing and return the empty list. *)
Theorem get_recipients_with_status_rows
    (self : UIDatabase.t) (db : DatabaseManager) (rows : list (list value)) (w w1 : W) :
  UIDatabase.db_manager self = Some db ->
  execute_query db RecipientsWithStatusQuery w = (Returns rows, w1) ->
  (Forall (fun row => (11 <= length row)%nat) rows ->
     UIDatabase.get_recipients_with_status self w = (Returns (map entry_of rows), w1)
     /\ length (map entry_of rows) = length rows)
  /\ (Exists (fun row => (length row < 11)%nat) rows ->
        UIDatabase.get_recipients_with_status self w = (Returns [], w1)).
Proof.
  intros Hdb Hquery. split.
  - intros Hfull. split; [|apply length_map].
    apply (get_recipients_with_status_full_rows self db rows w w1 Hdb Hquery Hfull).
  - intros Hshort.
    rewrite (get_recipients_with_status_after_query self db rows w w1 Hdb Hquery).
    unfold try_except. rewrite (map_io_short_row rows w1 Hshort). reflexivity.
Qed.

Lemma py_or_shown (v : value) : shown_count (py_or v (VInt 0)).
Proof.
  unfold shown_count, py_or. destruct (truthy v) eqn:Hv; [left; exact Hv | right; reflexivity].
Qed.

(** X5. Whatever the store does, the metrics the facade returns have
    [scheduler_running] false, and none of the four counts is [None] or
    another falsy value than the integer 0. *)
Theorem get_dashboard_metrics_shape (self : UIDatabase.t) (w : W) :
  exists metrics w',
    UIDatabase.get_dashboard_metrics self w = (Returns metrics, w')
    /\ DashboardMetrics.scheduler_running metrics = false
    /\ shown_count (DashboardMetrics.total_recipients metrics)
    /\ shown_count (DashboardMetrics.active_recipients metrics)
    /\ shown_count (DashboardMetrics.replied_recipients metrics)
    /\ shown_count (DashboardMetrics.pending_recipients metrics).
Proof.
  assert (Hdefault : forall w0, exists metrics w',
    bind now (fun t0 => ret (UIDatabase.default_metrics t0)) w0 = (Returns metrics, w')
    /\ DashboardMetrics.scheduler_running metrics = false
    /\ shown_count (DashboardMetrics.total_recipients metrics)
    /\ shown_count (DashboardMetrics.active_recipients metrics)
    /\ shown_count (DashboardMetrics.replied_recipients metrics)
    /\ shown_count (DashboardMetrics.pending_recipients metrics)).
  { intros w0. unfold bind. rewrite now_returns. eexists _, _.
    split; [reflexivity|]. simpl. repeat split; right; reflexivity. }
  unfold UIDatabase.get_dashboard_metrics, try_except, bind at 1.
  destruct (attr (UIDatabase.db_manager self) "execute_query" w) as [[db|e] w0];
    [|apply Hdefault].
  unfold bind at 1.
  destruct (execute_query db DashboardCountsQuery w0) as [[rows|e] w1]; [|apply Hdefault].
  destruct rows as [|row rest].
  { destruct (Hdefault w1) as (m & w' & Hm & Hrest). rewrite Hm. eauto. }
  unfold bind at 1. destruct (row_get row 0 w1) as [[c0|e] w2]; [|apply Hdefault].
  unfold bind at 1. destruct (row_get row 1 w2) as [[c1|e] w3]; [|apply Hdefault].
  unfold bind at 1. destruct (row_get row 2 w3) as [[c2|e] w4]; [|apply Hdefault].
  unfold bind at 1. destruct (row_get row 3 w4) as [[c3|e] w5]; [|apply Hdefault].
  unfold bind. rewrite now_returns. eexists _, _. split; [reflexivity|]. simpl.
  repeat split; apply py_or_shown.
Qed.

End Reads.

(** A store that hands over one complete row and one that stops after the
    name: the listing is empty. *)
Lemma get_recipients_with_status_rows_witness :
  UIDatabase.get_recipients_with_status (S := Canned.store) Canned.connected
    [ [ VInt 1; VStr "John"; VStr "Acme Corp"; VStr "CEO"; VStr "john@acme.com";
        VStr "active"; VInt 1; VInt 0; VInt 0; VInt 0; VNone ];
      [ VInt 2; VStr "Ann" ] ]
  = (Returns [],
     [ [ VInt 1; VStr "John"; VStr "Acme Corp"; VStr "CEO"; VStr "john@acme.com";
         VStr "active"; VInt 1; VInt 0; VInt 0; VInt 0; VNone ];
       [ VInt 2; VStr "Ann" ] ]).
Proof.
  apply (proj2 (get_recipients_with_status_rows (S := Canned.store) Canned.connected tt
                  _ _ _ eq_refl eq_refl)).
  apply Exists_cons_tl, Exists_cons_hd. simpl. lia.
Defined.

(** ** The form and the facade *)

Section FormAndFacade.
Import Tables.
Variable valid : Recipient.t -> bool.
Variable clock_at : nat -> Z.












End FormAndFacade.



(** ** The guard's cooldown, the display helpers and the error texts *)

Section GuardAndDisplay.
Import OperationalSafety StatusDisplay ErrorMessageEnhancer.

Lemma append_injective (prefix a b : string) : prefix +:+ a = prefix +:+ b -> a = b.
Proof. induction prefix as [|c prefix IH]; simpl; [auto|]. intros [= H]. auto. Qed.

Lemma last_operation_key_injective (a b : string) :
  last_operation_key a = last_operation_key b -> a = b.
Proof. apply append_injective. Qed.

(** X9. The cooldown is kept per kind of action.  Once an action has been
    recorded at time [t], the same action is refused for the 60 seconds that
    follow and admitted from then on (when the scheduler's state admits it),
    while the verdict on any other action is what it was before the record:
    a stop right after a start is not held back. *)
Theorem cooldown_per_action (session : gmap string Z) (t now_ : Z)
    (action other : string) (running other_running : bool) :
  (action = "start" /\ running = false) \/ (action = "stop" /\ running = true) ->
  other <> action ->
  validate_scheduler_operation (record_scheduler_operation session t action)
    now_ action running
  = (if now_ - t <? seconds 60
     then (false, "Please wait before " +:+ action
                    +:+ "ing the scheduler again (minimum 1 minute interval)")
     else (true, "Operation allowed"))
  /\ validate_scheduler_operation (record_scheduler_operation session t action)
       now_ other other_running
     = validate_scheduler_operation session now_ other other_running.
Proof.
  intros Hadmit Hother. unfold validate_scheduler_operation, record_scheduler_operation.
  split.
  - rewrite lookup_insert_eq, cooldown_test.
    destruct Hadmit as [[-> ->]|[-> ->]]; reflexivity.
  - rewrite lookup_insert_ne; [reflexivity|].
    intros Hkey. apply last_operation_key_injective in Hkey. congruence.
Qed.

Lemma cooldown_per_action_witness :
  validate_scheduler_operation (record_scheduler_operation ∅ (seconds 1000) "start")
    (seconds 1001) "stop" true
  = validate_scheduler_operation ∅ (seconds 1001) "stop" true.
Proof.
  apply (cooldown_per_action ∅ (seconds 1000) (seconds 1001) "start" "stop" false true).
  - left. split; reflexivity.
  - discriminate.
Defined.

(** X10. The style class of a derived status: "status-success" exactly when
    a reply was seen, whatever the stored status; otherwise "status-active"
    for 'active', "status-pending" for 'pending', "status-stopped" for
    'stopped' and "status-unknown" for every other stored value. *)
Theorem color_class_of_derived_status (recipient_status : value) (has_replied : bool) :
  get_status_color_class (UIDatabase._calculate_status recipient_status has_replied)
  = if has_replied then "status-success"
    else if bool_decide (recipient_status = VStr "active") then "status-active"
    else if bool_decide (recipient_status = VStr "pending") then "status-pending"
    else if bool_decide (recipient_status = VStr "stopped") then "status-stopped"
    else "status-unknown".
Proof.
  destruct has_replied; [reflexivity|].
  unfold UIDatabase._calculate_status.
  destruct recipient_status as [|z|s]; try reflexivity.
  destruct (String.eqb_spec s "active") as [->|Ha]; [reflexivity|].
  rewrite bool_decide_eq_false_2 by congruence.
  destruct (String.eqb_spec s "pending") as [->|Hp]; [reflexivity|].
  rewrite bool_decide_eq_false_2 by congruence.
  destruct (String.eqb_spec s "stopped") as [->|Hs]; [reflexivity|].
  rewrite bool_decide_eq_false_2 by congruence.
  reflexivity.
Qed.

(** X11. What the mail-status text says, for every combination of the four
    flags: it names the reply exactly when there is one, and then nothing
    else; without a reply it names each mail that was sent and only those,
    and it says "Not started" exactly when none was. *)
Theorem format_email_status_mentions (first_mail reminder1 reminder2 replied : bool) :
  let text := format_email_status first_mail reminder1 reminder2 replied in
  contains "Replied" text = replied
  /\ contains "First mail sent" text = negb replied && first_mail
  /\ contains "Reminder 1 sent" text = negb replied && reminder1
  /\ contains "Reminder 2 sent" text = negb replied && reminder2
  /\ contains "Not started" text
     = negb replied && negb first_mail && negb reminder1 && negb reminder2.
Proof.
  destruct first_mail, reminder1, reminder2, replied; vm_compute; repeat split.
Qed.

(** X12. Both ways in which [add_recipient] reports a duplicate, the
    "already exists" answer for any email and the database's uniqueness
    error, are turned into the same text by [enhance_database_error]; its
    two other failure messages get the general text. *)
Theorem duplicate_reports_enhanced (shown : string) :
  enhance_database_error ("Recipient with email " +:+ shown +:+ " already exists")
  = duplicate_text
  /\ enhance_database_error "Database error: UNIQUE constraint failed: recipients.email"
     = duplicate_text
  /\ enhance_database_error "Missing required fields" = database_fallback
  /\ enhance_database_error "Invalid recipient data" = database_fallback.
Proof.
  split; [|repeat split].
  unfold enhance_database_error.
  assert (Hexists : contains "already exists"
            (lower ("Recipient with email " +:+ shown +:+ " already exists")) = true).
  { rewrite !lower_app.
    change (lower " already exists") with (" " +:+ ("already exists" +:+ "")).
    rewrite (string_app_assoc (lower shown)), string_app_assoc.
    apply contains_middle. discriminate. }
  cbv zeta. rewrite Hexists, orb_true_r. reflexivity.
Qed.

End GuardAndDisplay.


(** ** The bridge's cleanup *)

Section Cleanup.
Import BackendIntegration.
Context {W : Type} `{B : Backend W}.

Lemma cleanup_app_returns (self : t) (w w' : W) (app : EmailAutomationApp) :
  _app_instance self = Some app ->
  app_cleanup app w = (Returns tt, w') ->
  cleanup (self, w) = (Returns tt, (init, w')).
Proof.
  intros Happ Hclean. unfold cleanup, try_except, bind, get, lift.
  rewrite Happ, Hclean. reflexivity.
Qed.


(** X14. The way back from a failed initialisation: after a first call
    during which [initialize] raised, a [cleanup] whose app cleanup
    returns makes the next call behave as the first call of a new bridge,
    so that call initialises again. *)
Theorem cleanup_lets_the_bridge_initialise_again
    (op next : operation) (w w0 w1 w2 : W) (app : EmailAutomationApp) (e : exn) :
  new_app w = (Returns app, w0) ->
  app_initialize app w0 = (Raises e, w1) ->
  app_cleanup app w1 = (Returns tt, w2) ->
  bind (call op) (fun _ => bind cleanup (fun _ => call next)) (init, w)
  = call next (init, w2).
Proof.
  intros Hnew Hinit Hclean.
  assert (Hfirst : call op (init, w)
                   = (Returns (false, error_prefix op +:+ str_of_exn e),
                      (Build None None None None (Some app), w1))).
  { rewrite call_shape.
    unfold try_except, bind, ensure_app, _initialize_app, try_except, bind, get,
      construct_app, initialize_app, bind,
      lift, set_app_instance, app_instance_attr, attr, bind, get, raise, handler, ret.
    simpl. rewrite Hnew. simpl. rewrite Hinit. reflexivity. }
  unfold bind at 1. rewrite Hfirst.
  unfold bind at 1.
  rewrite (cleanup_app_returns (Build None None None None (Some app)) w1 w2 app eq_refl Hclean).
  reflexivity.
Qed.

End Cleanup.

Lemma cleanup_lets_the_bridge_initialise_again_witness :
  bind (BackendIntegration.call (B := Scripted.backend) BackendIntegration.StartScheduler)
    (fun _ => bind BackendIntegration.cleanup
       (fun _ => BackendIntegration.call BackendIntegration.StartScheduler))
    (BackendIntegration.init, [Some "connection refused"; None])
  = (Returns (true, "Scheduler started successfully"),
     (BackendIntegration.Build (B := Scripted.backend) None None (Some tt) (Some tt) (Some tt),
      [])).
Proof.
  refine (eq_trans
            (cleanup_lets_the_bridge_initialise_again (B := Scripted.backend)
               BackendIntegration.StartScheduler BackendIntegration.StartScheduler
               [Some "connection refused"; None] [Some "connection refused"; None]
               [None] [None] tt (Exception "connection refused") eq_refl eq_refl eq_refl) _).
  reflexivity.
Defined.

(** ** Reading the scheduler's status *)

Section ProbeFacts.
Context {W : Type} (P : SchedulerProbe W).

Let CP : SchedulerProbe (W * (nat * nat)) := ProbeCounting.probe P.
#[local] Existing Instance CP.

(** X15. The bridge's status check never raises, and closes every
    database manager it constructs: after the call the two counts have
    gone up together, by one at most. *)
Theorem status_check_closes_what_it_constructs (w : W) (made closed : nat) :
  exists status w' made' closed',
    StatusCheck.get_scheduler_status (w, (made, closed))
    = (Returns status, (w', (made', closed')))
    /\ (made' + closed = made + closed')%nat
    /\ (made <= made' <= S made)%nat.
Proof.
  unfold StatusCheck.get_scheduler_status, StatusCheck.get_database_manager,
    try_except, try_finally, bind, ret.
  simpl. unfold ProbeCounting.beside, ProbeCounting.constructing, ProbeCounting.closing.
  repeat (case_match; simplify_eq/=); eexists _, _, _, _;
    (split; [reflexivity | lia]).
Qed.

(** X16. The dashboard's status check never raises either, but closes the
    manager only on the way that read the status: whatever it answers, it
    has closed no more than it constructed, and an answer other than
    [False] means one manager constructed and closed. *)
Theorem dashboard_status_check_closes_on_success_only (w : W) (made closed : nat) :
  exists answer w' made' closed',
    StatusCheck.dashboard_get_scheduler_status (w, (made, closed))
    = (Returns answer, (w', (made', closed')))
    /\ (made <= made' <= S made)%nat
    /\ (closed <= closed')%nat
    /\ (made' + closed >= made + closed')%nat
    /\ (answer <> PBool false -> made' = S made /\ closed' = S closed).
Proof.
  unfold StatusCheck.dashboard_get_scheduler_status, try_except, bind, ret.
  simpl. unfold ProbeCounting.beside, ProbeCounting.constructing, ProbeCounting.closing.
  repeat (case_match; simplify_eq/=); eexists _, _, _, _;
    (split; [reflexivity | repeat split; try lia; congruence]).
Qed.

(** X17. A database that cannot be initialised: both checks answer that
    the scheduler is not running, the bridge's with the error text beside
    it.  The bridge's check has closed the manager it constructed; the
    dashboard's has left it open. *)
Theorem failed_status_check_leaves_manager_open
    (w w1 w2 w3 : W) (made closed : nat)
    (config : ProbeConfig (W := W)) (db_manager : ProbeDatabase (W := W)) (e : exn) :
  probe_config (SchedulerProbe := P) w = (Returns config, w1) ->
  probe_database (SchedulerProbe := P) config w1 = (Returns db_manager, w2) ->
  probe_initialize (SchedulerProbe := P) db_manager w2 = (Raises e, w3) ->
  StatusCheck.dashboard_get_scheduler_status (w, (made, closed))
  = (Returns (PBool false), (w3, (S made, closed)))
  /\ StatusCheck.get_scheduler_status (w, (made, closed))
     = (Returns (<["scheduler_running" := PBool false]>
                   (<["error" := PStr (str_of_exn e)]> ∅)),
        (snd (probe_close (SchedulerProbe := P) db_manager w3), (S made, S closed))).
Proof.
  intros Hconfig Hdb Hinit. split.
  - unfold StatusCheck.dashboard_get_scheduler_status, try_except, bind, ret.
    simpl. unfold ProbeCounting.beside, ProbeCounting.constructing.
    rewrite Hconfig, Hdb, Hinit. reflexivity.
  - unfold StatusCheck.get_scheduler_status, StatusCheck.get_database_manager,
      try_except, try_finally, bind, ret.
    simpl. unfold ProbeCounting.beside, ProbeCounting.constructing, ProbeCounting.closing.
    rewrite Hconfig, Hdb, Hinit.
    destruct (probe_close db_manager w3) as [[[]|e'] w4]; reflexivity.
Qed.

End ProbeFacts.

Lemma failed_status_check_leaves_manager_open_witness :
  StatusCheck.dashboard_get_scheduler_status
    (P := ProbeCounting.probe ScriptedProbe.probe)
    ([Some "unable to open database file"], (0, 0)%nat)
  = (Returns (PBool false), ([], (1, 0)%nat))
  /\ StatusCheck.get_scheduler_status
       (P := ProbeCounting.probe ScriptedProbe.probe)
       ([Some "unable to open database file"], (0, 0)%nat)
     = (Returns (<["scheduler_running" := PBool false]>
                   (<["error" := PStr "unable to open database file"]> ∅)),
        ([], (1, 1)%nat)).
Proof.
  apply (failed_status_check_leaves_manager_open ScriptedProbe.probe
           [Some "unable to open database file"] [Some "unable to open database file"]
           [Some "unable to open database file"] [] 0%nat 0%nat tt tt
           (Exception "unable to open database file")); reflexivity.
Defined.

(** ** The control routes *)

Section ControlFacts.
Import ControlRoutes.
Context {W : Type} `{B : Backend W}.

Lemma get_backend_instances_present (g : globals) (w : W) (app : EmailAutomationApp) :
  _app_instance g = Some app ->
  get_backend_instances (g, w)
  = (Returns (_scheduler g, _reply_tracker g, Some app), (g, w)).
Proof.
  intros Happ. unfold get_backend_instances, try_except, bind, get, ret.
  simpl. rewrite Happ. simpl. rewrite ?Happ. reflexivity.
Qed.

(** The lazy construction of the route module and that of the bridge run
    the same statements. *)
Lemma get_backend_instances_as_bridge (g : globals) (w : W) :
  exists g' w',
    match BackendIntegration.ensure_app (as_bridge g, w) with
    | (Returns _, sh) =>
        sh = (as_bridge g', w')
        /\ get_backend_instances (g, w)
           = (Returns (_scheduler g', _reply_tracker g', _app_instance g'), (g', w'))
        /\ is_Some (_app_instance g')
    | (Raises e, sh) =>
        sh = (as_bridge g', w')
        /\ get_backend_instances (g, w) = (Returns (None, None, None), (g', w'))
    end.
Proof.
  destruct (_app_instance g) as [app|] eqn:Happ.
  - rewrite (ensure_app_present (as_bridge g) w app Happ).
    exists g, w. rewrite (get_backend_instances_present g w app Happ), Happ.
    split; [reflexivity | split; [reflexivity | eauto]].
  - unfold BackendIntegration.ensure_app, BackendIntegration._initialize_app,
      get_backend_instances, try_except,
      BackendIntegration.construct_app, BackendIntegration.initialize_app,
      BackendIntegration.publish_scheduler, BackendIntegration.publish_reply_tracker,
      BackendIntegration.app_instance_attr, app_instance_attr,
      bind, BackendIntegration.get, get, BackendIntegration.lift, lift,
      BackendIntegration.set_app_instance, set_app_instance,
      BackendIntegration.set_scheduler, set_scheduler,
      BackendIntegration.set_reply_tracker, set_reply_tracker, attr, ret, raise.
    simpl. rewrite Happ.
    destruct (new_app w) as [[app|e] w0]; simpl;
      [|exists g, w0; split; reflexivity].
    destruct (app_initialize app w0) as [[[]|e] w1]; simpl;
      [|eexists (Globals _ _ _), w1; split; reflexivity].
    destruct (app_scheduler app w1) as [[s|e] w2]; simpl;
      [|eexists (Globals _ _ _), w2; split; reflexivity].
    destruct (app_reply_tracker app w2) as [[r|e] w3]; simpl;
      [|eexists (Globals _ _ _), w3; split; reflexivity].
    eexists (Globals _ _ _), w3. split; [reflexivity | split; [reflexivity | eauto]].
Qed.

Lemma get_backend_instances_returns (g : globals) (w : W) :
  exists found sh, get_backend_instances (g, w) = (Returns found, sh).
Proof.
  unfold get_backend_instances. apply try_except_returns.
  intros e sh. eexists _, _. reflexivity.
Qed.

(** X18. [get_backend_instances] never raises, and once it has stored an
    app instance every later call returns what the globals hold, whatever
    the backend has become, without touching backend or globals. *)
Theorem get_backend_instances_constructs_once (g : globals) (w : W) :
  exists found g1 w1,
    get_backend_instances (g, w) = (Returns found, (g1, w1))
    /\ (is_Some (_app_instance g1) ->
        forall w2, get_backend_instances (g1, w2)
                   = (Returns (_scheduler g1, _reply_tracker g1, _app_instance g1),
                      (g1, w2))).
Proof.
  destruct (get_backend_instances_as_bridge g w) as (g' & w' & Hrun).
  destruct (BackendIntegration.ensure_app (as_bridge g, w)) as [[[]|e] sh].
  - destruct Hrun as (_ & Hrun & _). rewrite Hrun. eexists _, _, _.
    split; [reflexivity|]. intros [app Happ] w2.
    rewrite (get_backend_instances_present g' w2 app Happ), Happ. reflexivity.
  - destruct Hrun as (_ & Hrun). rewrite Hrun. eexists _, _, _.
    split; [reflexivity|]. intros [app Happ] w2.
    rewrite (get_backend_instances_present g' w2 app Happ), Happ. reflexivity.
Qed.

(** X19. The route module keeps a failed initialisation as the bridge
    does, and has no cleanup to undo it: when [initialize] raises during
    the first request, the globals keep the app instance without scheduler
    and reply tracker, and from then on every route flashes "not
    available" and leaves the backend alone. *)
Theorem routes_keep_failed_initialisation
    (w w0 w1 : W) (app : EmailAutomationApp) (e : exn) :
  new_app w = (Returns app, w0) ->
  app_initialize app w0 = (Raises e, w1) ->
  let stuck := Globals None None (Some app) in
  get_backend_instances (start, w) = (Returns (None, None, None), (stuck, w1))
  /\ (forall op w',
        route op (Returns tt) (stuck, w')
        = (Returns [(unavailable_text op, "error")], (stuck, w'))).
Proof.
  intros Hnew Hinit stuck. split.
  - unfold get_backend_instances, try_except, app_instance_attr,
      bind, get, lift, set_app_instance, attr, ret, raise.
    simpl. rewrite Hnew. simpl. rewrite Hinit. reflexivity.
  - intros op w'. unfold route, try_except. unfold bind at 1. unfold bind at 1.
    rewrite (get_backend_instances_present stuck w' app eq_refl).
    destruct op; reflexivity.
Qed.

(** X20. Every control route flashes exactly one message, whatever the
    token check and the backend do, and the message is [success] only with
    the route's own success text.  A request whose token check raises
    reaches neither the backend nor the globals: the route flashes that
    error and nothing else happens. *)
Theorem route_flashes_once (op : BackendIntegration.operation) (csrf : outcome unit)
    (g : globals) (w : W) :
  exists text category sh,
    route op csrf (g, w) = (Returns [(text, category)], sh)
    /\ (category = "success" /\ text = success_text op \/ category = "error")
    /\ (forall e, csrf = Raises e ->
          sh = (g, w) /\ category = "error"
          /\ text = error_text op +:+ str_of_exn e).
Proof.
  unfold route, try_except. unfold bind at 1.
  destruct csrf as [[]|e].
  2: { eexists _, _, _. split; [reflexivity|]. split; [right; reflexivity|].
       intros e' [= <-]. repeat split. }
  unfold bind at 1.
  destruct (get_backend_instances_returns g w) as (found & [g1 w1] & Hrun).
  rewrite Hrun.
  destruct (trigger op found) as [action|].
  2: { eexists _, _, _. split; [reflexivity|]. split; [right; reflexivity|].
       intros e' [=]. }
  unfold bind, lift, ret.
  destruct (action w1) as [[[]|e] w2]; eexists _, _, _;
    (split; [reflexivity|]);
    (split; [(left; split; reflexivity) || (right; reflexivity) | intros e' [=]]).
Qed.

(** X21. The routes and the bridge are two copies of one logic: on the
    same attributes and the same backend, a route with a valid token
    flashes its success text exactly when the bridge's method of that name
    returns [True], and both leave the same attributes and the same
    backend behind. *)
Theorem route_agrees_with_bridge (op : BackendIntegration.operation)
    (g : globals) (w : W) :
  exists flashed g' w' ok message,
    route op (Returns tt) (g, w) = (Returns flashed, (g', w'))
    /\ BackendIntegration.call op (as_bridge g, w)
       = (Returns (ok, message), (as_bridge g', w'))
    /\ (ok = true <-> flashed = [(success_text op, "success")]).
Proof.
  rewrite call_shape.
  destruct (get_backend_instances_as_bridge g w) as (g' & w' & Hrun).
  unfold route, try_except. unfold bind at 1. unfold bind at 1.
  assert (Hbridge : bind BackendIntegration.ensure_app (fun _ => BackendIntegration.use op)
                      (as_bridge g, w)
                    = match BackendIntegration.ensure_app (as_bridge g, w) with
                      | (Returns _, sh) => BackendIntegration.use op sh
                      | (Raises e, sh) => (Raises e, sh)
                      end) by reflexivity.
  rewrite Hbridge. clear Hbridge.
  destruct (BackendIntegration.ensure_app (as_bridge g, w)) as [[[]|e] sh].
  - destruct Hrun as (-> & -> & _).
    destruct op;
      unfold trigger, BackendIntegration.use, bind, BackendIntegration.get,
        BackendIntegration.lift, lift, BackendIntegration.handler, ret; simpl;
      repeat (case_match; simplify_eq/=); eexists _, _, _, _, _;
      (split; [reflexivity | split; [reflexivity|]]);
      split; first [reflexivity | discriminate].
  - destruct Hrun as (-> & ->).
    destruct op; eexists _, _, _, _, _;
      (split; [reflexivity | split; [reflexivity|]]); split; discriminate.
Qed.

End ControlFacts.

Lemma routes_keep_failed_initialisation_witness :
  ControlRoutes.get_backend_instances (B := Scripted.backend)
    (ControlRoutes.start (B := Scripted.backend), [Some "connection refused"; None])
  = (Returns (None, None, None), (ControlRoutes.Globals (B := Scripted.backend) None None (Some tt), [None]))
  /\ ControlRoutes.route (B := Scripted.backend) BackendIntegration.StartScheduler (Returns tt)
       (ControlRoutes.Globals (B := Scripted.backend) None None (Some tt), [None])
     = (Returns [("Scheduler not available. Check system configuration.", "error")],
        (ControlRoutes.Globals (B := Scripted.backend) None None (Some tt), [None])).
Proof.
  destruct (routes_keep_failed_initialisation (B := Scripted.backend)
              [Some "connection refused"; None] [Some "connection refused"; None] [None]
              tt (Exception "connection refused") eq_refl eq_refl) as (Hfirst & Hlater).
  split; [exact Hfirst | exact (Hlater BackendIntegration.StartScheduler [None])].
Defined.
